(** * WhirlyGlobeLib: texture resources (TextureGLES.cpp) and the geometry
      manager's removal path (GeometryManager.h)

    A shallow embedding of [TextureGLES.cpp]: the format resolver
    ([getBytesPerRow], [mapInternalFormat], [mapGLFormat], [mapGLType]), the
    PKM header parser ([ResolvePKM]) and the two-phase life cycle
    ([createInRenderer], [destroyInRenderer]).  Calls into OpenGL, into the
    pooled allocator and into the logger are recorded, in order, as a list of
    [GLCall]s returned next to the result. *)

From Stdlib Require Import ZArith QArith List Bool Lia.
From Stdlib Require Import Strings.Byte.
From stdpp Require Import gmap strings sorting.

Local Open Scope Z_scope.

(** ** Machine integers *)

Module CInt.

(** [int] is 32 bits wide.  Signed overflow is undefined in C++; it is
    modelled by two's complement wrap-around, and every theorem that
    depends on a product says in which range it holds. *)
Definition INT_MAX : Z := 2147483647.
Definition INT_MIN : Z := -2147483648.

Definition to_int (z : Z) : Z := (z + 2 ^ 31) mod 2 ^ 32 - 2 ^ 31.

(** [a * b] on [int]. *)
Definition mul (a b : Z) : Z := to_int (a * b).

(** [a / b] on [int]: C++ division truncates towards zero. *)
Definition div (a b : Z) : Z := Z.quot a b.

(** The value of an [int] converted to [unsigned long] (64 bits), as the
    usual arithmetic conversions do before [int] is compared with the
    result of [RawData::getLen()]. *)
Definition to_ulong (z : Z) : Z := z mod 2 ^ 64.

End CInt.

(** ** OpenGL ES names (GLES3/gl3.h) *)

Definition GLenum := Z.
Definition GLint := Z.
Definition GLuint := Z.

Module GL.
Definition GL_NONE : Z := 0.
Definition GL_TEXTURE_2D : Z := 0x0DE1.
Definition GL_NEAREST : Z := 0x2600.
Definition GL_LINEAR : Z := 0x2601.
Definition GL_NEAREST_MIPMAP_LINEAR : Z := 0x2702.
Definition GL_TEXTURE_MAG_FILTER : Z := 0x2800.
Definition GL_TEXTURE_MIN_FILTER : Z := 0x2801.
Definition GL_TEXTURE_WRAP_S : Z := 0x2802.
Definition GL_TEXTURE_WRAP_T : Z := 0x2803.
Definition GL_REPEAT : Z := 0x2901.
Definition GL_CLAMP_TO_EDGE : Z := 0x812F.
(* internal formats *)
Definition GL_RGBA8 : Z := 0x8058.
Definition GL_RGB5_A1 : Z := 0x8057.
Definition GL_RGBA : Z := 0x1908.
Definition GL_RGB565 : Z := 0x8D62.
Definition GL_ALPHA : Z := 0x1906.
Definition GL_R8 : Z := 0x8229.
Definition GL_RG8 : Z := 0x822B.
Definition GL_R16F : Z := 0x822D.
Definition GL_RG16F : Z := 0x822F.
Definition GL_HALF_FLOAT : Z := 0x140B.
Definition GL_R32F : Z := 0x822E.
Definition GL_RG32F : Z := 0x8230.
Definition GL_DEPTH_COMPONENT32F : Z := 0x8CAC.
Definition GL_RGBA32F : Z := 0x8814.
Definition GL_R16I : Z := 0x8233.
Definition GL_R16UI : Z := 0x8234.
Definition GL_RG16UI : Z := 0x823A.
Definition GL_R32UI : Z := 0x8236.
Definition GL_RG32UI : Z := 0x823C.
Definition GL_RGBA32UI : Z := 0x8D70.
(* transfer formats *)
Definition GL_RED : Z := 0x1903.
Definition GL_RED_INTEGER : Z := 0x8D94.
Definition GL_RG : Z := 0x8227.
Definition GL_RG_INTEGER : Z := 0x8228.
Definition GL_RGB : Z := 0x1907.
Definition GL_RGBA_INTEGER : Z := 0x8D99.
Definition GL_DEPTH_COMPONENT : Z := 0x1902.
(* element types *)
Definition GL_UNSIGNED_BYTE : Z := 0x1401.
Definition GL_SHORT : Z := 0x1402.
Definition GL_UNSIGNED_SHORT : Z := 0x1403.
Definition GL_UNSIGNED_INT : Z := 0x1405.
Definition GL_FLOAT : Z := 0x1406.
Definition GL_UNSIGNED_SHORT_4_4_4_4 : Z := 0x8033.
Definition GL_UNSIGNED_SHORT_5_5_5_1 : Z := 0x8034.
Definition GL_UNSIGNED_SHORT_5_6_5 : Z := 0x8363.
(* ETC2 / EAC compressed formats *)
Definition GL_COMPRESSED_R11_EAC : Z := 0x9270.
Definition GL_COMPRESSED_SIGNED_R11_EAC : Z := 0x9271.
Definition GL_COMPRESSED_RG11_EAC : Z := 0x9272.
Definition GL_COMPRESSED_SIGNED_RG11_EAC : Z := 0x9273.
Definition GL_COMPRESSED_RGB8_ETC2 : Z := 0x9274.
Definition GL_COMPRESSED_RGB8_PUNCHTHROUGH_ALPHA1_ETC2 : Z := 0x9276.
Definition GL_COMPRESSED_RGBA8_ETC2_EAC : Z := 0x9278.
End GL.
Import GL.

(** ** Texture descriptors *)

(** The enumerators of [TextureType] that TextureGLES.cpp names; every other
    value of the enumeration takes the [default:] branches and is
    [TexTypeOther]. *)
Inductive TextureType : Set :=
| TexTypeUnsignedByte
| TexTypeShort565
| TexTypeShort4444
| TexTypeShort5551
| TexTypeSingleChannel
| TexTypeDoubleChannel
| TexTypeSingleFloat16
| TexTypeSingleFloat32
| TexTypeDoubleFloat16
| TexTypeDoubleFloat32
| TexTypeQuadFloat16
| TexTypeQuadFloat32
| TexTypeDepthFloat32
| TexTypeSingleInt16
| TexTypeSingleUInt16
| TexTypeDoubleUInt16
| TexTypeSingleUInt32
| TexTypeDoubleUInt32
| TexTypeQuadUInt32
| TexTypeOther.

Inductive WKSingleByteSource : Set :=
| WKSingleRed
| WKSingleGreen
| WKSingleBlue
| WKSingleRGB
| WKSingleAlpha.

Inductive TextureInterpType : Set :=
| TexInterpNearest
| TexInterpLinear.

(** [RawData] is a block of bytes; a [RawDataRef] is a shared pointer to one
    and may be null. *)
Definition RawData := list byte.
Definition RawDataRef := option RawData.

Definition getLen (d : RawData) : Z := Z.of_nat (length d).

Definition byte_val (b : byte) : Z := Z.of_N (Byte.to_N b).

(** ** Texture format resolver *)

Definition getBytesPerRow (tt : TextureType) (width : Z) : Z :=
  match tt with
  | TexTypeSingleChannel
  | TexTypeUnsignedByte => CInt.mul width 1
  | TexTypeDoubleChannel
  | TexTypeSingleFloat16
  | TexTypeShort5551
  | TexTypeShort4444
  | TexTypeShort565
  | TexTypeSingleInt16
  | TexTypeSingleUInt16 => CInt.mul width 2
  | TexTypeDoubleUInt16
  | TexTypeDoubleFloat16
  | TexTypeSingleFloat32
  | TexTypeDepthFloat32
  | TexTypeSingleUInt32 => CInt.mul width 4
  | TexTypeDoubleFloat32
  | TexTypeDoubleUInt32
  | TexTypeQuadFloat16 => CInt.mul width 8
  | TexTypeQuadFloat32
  | TexTypeQuadUInt32 => CInt.mul width 16
  | TexTypeOther => GL_NONE
  end.

Definition mapInternalFormat (tt : TextureType) (byteSource : WKSingleByteSource) : GLint :=
  match tt with
  | TexTypeUnsignedByte => GL_RGBA8
  | TexTypeShort5551 => GL_RGB5_A1
  | TexTypeShort4444 => GL_RGBA
  | TexTypeShort565 => GL_RGB565
  | TexTypeSingleChannel =>
      match byteSource with
      | WKSingleAlpha => GL_ALPHA
      | WKSingleRed => GL_R8
      | WKSingleGreen
      | WKSingleBlue
      | WKSingleRGB => GL_NONE
      end
  | TexTypeDoubleChannel => GL_RG8
  | TexTypeSingleFloat16 => GL_R16F
  | TexTypeDoubleFloat16 => GL_RG16F
  | TexTypeQuadFloat16 => GL_HALF_FLOAT
  | TexTypeSingleFloat32 => GL_R32F
  | TexTypeDoubleFloat32 => GL_RG32F
  | TexTypeDepthFloat32 => GL_DEPTH_COMPONENT32F
  | TexTypeQuadFloat32 => GL_RGBA32F
  | TexTypeSingleInt16 => GL_R16I
  | TexTypeSingleUInt16 => GL_R16UI
  | TexTypeDoubleUInt16 => GL_RG16UI
  | TexTypeSingleUInt32 => GL_R32UI
  | TexTypeDoubleUInt32 => GL_RG32UI
  | TexTypeQuadUInt32 => GL_RGBA32UI
  | TexTypeOther => GL_NONE
  end.

Definition mapGLFormat (tt : TextureType) (byteSource : WKSingleByteSource) : GLenum :=
  match tt with
  | TexTypeSingleChannel =>
      match byteSource with
      | WKSingleAlpha => GL_ALPHA
      | WKSingleRed => GL_RED
      | WKSingleGreen
      | WKSingleBlue
      | WKSingleRGB => GL_NONE
      end
  | TexTypeSingleFloat16
  | TexTypeSingleFloat32 => GL_RED
  | TexTypeSingleInt16
  | TexTypeSingleUInt16
  | TexTypeSingleUInt32 => GL_RED_INTEGER
  | TexTypeDoubleFloat16
  | TexTypeDoubleFloat32 => GL_RG
  | TexTypeDoubleChannel
  | TexTypeDoubleUInt16
  | TexTypeDoubleUInt32 => GL_RG_INTEGER
  | TexTypeShort565 => GL_RGB
  | TexTypeUnsignedByte
  | TexTypeShort4444
  | TexTypeShort5551
  | TexTypeQuadFloat16
  | TexTypeQuadFloat32 => GL_RGBA
  | TexTypeQuadUInt32 => GL_RGBA_INTEGER
  | TexTypeDepthFloat32 => GL_DEPTH_COMPONENT
  | TexTypeOther => GL_NONE
  end.

Definition mapGLType (tt : TextureType) (byteSource : WKSingleByteSource) : GLenum :=
  match tt with
  | TexTypeUnsignedByte
  | TexTypeSingleChannel
  | TexTypeDoubleChannel => GL_UNSIGNED_BYTE
  | TexTypeShort565 => GL_UNSIGNED_SHORT_5_6_5
  | TexTypeShort4444 => GL_UNSIGNED_SHORT_4_4_4_4
  | TexTypeShort5551 => GL_UNSIGNED_SHORT_5_5_5_1
  | TexTypeSingleFloat16
  | TexTypeDoubleFloat16
  | TexTypeQuadFloat16 => GL_HALF_FLOAT
  | TexTypeSingleFloat32
  | TexTypeDoubleFloat32
  | TexTypeQuadFloat32
  | TexTypeDepthFloat32 => GL_FLOAT
  | TexTypeSingleInt16 => GL_SHORT
  | TexTypeSingleUInt16
  | TexTypeDoubleUInt16 => GL_UNSIGNED_SHORT
  | TexTypeSingleUInt32
  | TexTypeDoubleUInt32
  | TexTypeQuadUInt32 => GL_UNSIGNED_INT
  | TexTypeOther => GL_NONE
  end.

(** ** PKM header parser *)

(** [strncmp] of the C library on byte blocks: at most [n] characters are
    compared, as [unsigned char]; the comparison stops at the first
    difference or at a NUL.  The end of a modelled block reads as NUL. *)
Fixpoint strncmp (s1 s2 : list byte) (n : nat) : Z :=
  match n with
  | O => 0
  | S n' =>
      let c1 := hd x00 s1 in
      let c2 := hd x00 s2 in
      if negb (Byte.eqb c1 c2) then byte_val c1 - byte_val c2
      else if Byte.eqb c1 x00 then 0
      else strncmp (tl s1) (tl s2) n'
  end.

(** The string literal ["PKM "]. *)
Definition PKM_magic : list byte := [x50; x4b; x4d; x20].

(** The four [int&] parameters of [ResolvePKM]. *)
Record PKMRefs : Set := mkPKMRefs {
  pkmType : Z;
  size : Z;
  pkmWidth : Z;
  pkmHeight : Z
}.

(** [header[i]], promoted to [int]. *)
Definition header_at (header : RawData) (i : nat) : Z := byte_val (nth i header x00).

(** The block under "Resolve the GL type": the [switch] on the sub-type
    byte.  It yields [size] (left as it was where no case assigns it) and
    [glType], which starts as -1. *)
Definition resolveGLType (type width height size0 : Z) : Z * Z :=
  match type with
  | 0 => (size0, -1)   (* ETC1 not supported *)
  | 1 => (CInt.div (CInt.mul width height) 2, GL_COMPRESSED_RGB8_ETC2)
  | 2 => (size0, -1)   (* Unused *)
  | 3 => (CInt.mul width height, GL_COMPRESSED_RGBA8_ETC2_EAC)
  | 4 => (CInt.div (CInt.mul width height) 2, GL_COMPRESSED_RGB8_PUNCHTHROUGH_ALPHA1_ETC2)
  | 5 => (CInt.div (CInt.mul width height) 2, GL_COMPRESSED_R11_EAC)
  | 6 => (CInt.mul width height, GL_COMPRESSED_RG11_EAC)
  | 7 => (CInt.div (CInt.mul width height) 2, GL_COMPRESSED_SIGNED_R11_EAC)
  | 8 => (CInt.mul width height, GL_COMPRESSED_SIGNED_RG11_EAC)
  | _ => (size0, -1)
  end.

(** The result is the pointer [&header[16]] (here: the bytes from offset 16
    on) or [nullptr], next to the reference parameters as the call leaves
    them. *)
Definition ResolvePKM (texData : RawData) (refs : PKMRefs) : option RawData * PKMRefs :=
  if getLen texData <? 16 then (None, refs)
  else
    let header := texData in
    let type := header_at header 7 in
    (* Verify the magic number *)
    if negb (strncmp header PKM_magic 4 =? 0) then (None, refs)
    else
      let width := Z.lor (Z.shiftl (header_at header 8) 8) (header_at header 9) in
      let height := Z.lor (Z.shiftl (header_at header 10) 8) (header_at header 11) in
      let '(size', glType) := resolveGLType type width height (size refs) in
      if glType =? -1
      then (None, mkPKMRefs (pkmType refs) size' width height)
      else (Some (skipn 16 header), mkPKMRefs glType size' width height).

(** ** Texture resources *)

(** The members of [Texture] (the portable base class) that
    TextureGLES.cpp reads or writes. *)
Record Texture : Set := mkTexture {
  texData : RawDataRef;
  isEmptyTexture : bool;
  format : TextureType;
  byteSource : WKSingleByteSource;
  width : Z;
  height : Z;
  isPVRTC : bool;
  isPKM : bool;
  usesMipmaps : bool;
  wrapU : bool;
  wrapV : bool;
  interpType : TextureInterpType
}.

(** [TextureGLES] adds the native handle of [TextureBaseGLES]: 0 until the
    texture object exists. *)
Record TextureGLES : Set := mkTextureGLES {
  tex :> Texture;
  glId : GLuint
}.

(** [texData.reset()] *)
Definition reset_texData (x : Texture) : Texture :=
  mkTexture None (isEmptyTexture x) (format x) (byteSource x) (width x) (height x)
            (isPVRTC x) (isPKM x) (usesMipmaps x) (wrapU x) (wrapV x) (interpType x).

(** [RenderSetupInfoGLES]: only the null-ness of its [memManager] pointer is
    observed by the code below. *)
Inductive OpenGLMemManager : Set := TheMemManager.

Record RenderSetupInfoGLES : Set := mkSetupInfo {
  memManager : option OpenGLMemManager
}.

(** The log levels TextureGLES.cpp uses. *)
Inductive WKLogLevel : Set :=
| Warn
| Error.

(** What a call does to the outside: OpenGL entry points, the pooled
    allocator and the logger.  Log calls keep the format string, not the
    arguments printed with it. *)
Inductive GLCall : Set :=
| getTexID (id : GLuint)
| removeTexID (id : GLuint)
| glGenTextures (n : Z) (id : GLuint)
| glBindTexture (target : GLenum) (id : GLuint)
| glTexParameteri (target pname : GLenum) (param : GLint)
| glCompressedTexImage2D (target : GLenum) (level : GLint) (internalformat : GLenum)
                         (w h : Z) (border : GLint) (imageSize : Z) (data : RawData)
| glTexImage2D (target : GLenum) (level internalformat : GLint) (w h : Z)
               (border : GLint) (fmt type : GLenum) (data : RawDataRef)
| glGenerateMipmap (target : GLenum)
| CheckGLError (msg : string)
| wkLogLevel (level : WKLogLevel) (msg : string)
| wkLog (msg : string).

(** Calls that write pixels into the texture object. *)
Definition isUpload (c : GLCall) : bool :=
  match c with
  | glCompressedTexImage2D _ _ _ _ _ _ _ _ => true
  | glTexImage2D _ _ _ _ _ _ _ _ _ => true
  | _ => false
  end.

(** Calls that give a native handle back. *)
Definition isRelease (c : GLCall) : bool :=
  match c with
  | removeTexID _ => true
  | _ => false
  end.

Definition isErrorLog (c : GLCall) : bool :=
  match c with
  | wkLogLevel Error _ => true
  | _ => false
  end.

Definition isWarnLog (c : GLCall) : bool :=
  match c with
  | wkLogLevel Warn _ => true
  | _ => false
  end.

(** How a member function ends: it returns [ret], leaving the texture as [t],
    the names the allocators will hand out next as [ids] and having made the
    calls [log]; or it dereferences a null pointer. *)
Inductive Outcome (A : Type) : Type :=
| Returned (ret : A) (t : TextureGLES) (ids : list GLuint) (log : list GLCall)
| NullDeref.
Arguments Returned {A} ret t ids log.
Arguments NullDeref {A}.

(** The name the allocator in use ([memManager->getTexID()] or
    [glGenTextures]) hands out next: the head of [ids]; when none is left the
    handle stays 0. *)
Definition nextTexID (ids : list GLuint) : GLuint := hd 0 ids.

Definition hasMemManager (setupInfo : option RenderSetupInfoGLES) : bool :=
  match setupInfo with
  | Some si => bool_decide (is_Some (memManager si))
  | None => false
  end.

(** The reference parameters of [ResolvePKM] are uninitialised locals of the
    caller; [ResolvePKM] writes all of them before they are read. *)
Definition uninitialised : PKMRefs := mkPKMRefs 0 0 0 0.

(** The calls between the allocation of the texture object and the upload:
    bind, filter mode, wrap mode. *)
Definition setupCalls (setupInfo : option RenderSetupInfoGLES) (this : Texture)
           (newId : GLuint) : list GLCall :=
  let interTypeGL :=
    match interpType this with TexInterpNearest => GL_NEAREST | _ => GL_LINEAR end in
  [ if hasMemManager setupInfo then getTexID newId else glGenTextures 1 newId;
    CheckGLError "Texture::createInRenderer() glGenTextures()";
    glBindTexture GL_TEXTURE_2D newId;
    CheckGLError "Texture::createInRenderer() glBindTexture()";
    (if usesMipmaps this
     then glTexParameteri GL_TEXTURE_2D GL_TEXTURE_MIN_FILTER GL_NEAREST_MIPMAP_LINEAR
     else glTexParameteri GL_TEXTURE_2D GL_TEXTURE_MIN_FILTER interTypeGL);
    glTexParameteri GL_TEXTURE_2D GL_TEXTURE_MAG_FILTER interTypeGL;
    CheckGLError "Texture::createInRenderer() glTexParameteri()";
    glTexParameteri GL_TEXTURE_2D GL_TEXTURE_WRAP_S
                    (if wrapU this then GL_REPEAT else GL_CLAMP_TO_EDGE);
    glTexParameteri GL_TEXTURE_2D GL_TEXTURE_WRAP_T
                    (if wrapV this then GL_REPEAT else GL_CLAMP_TO_EDGE);
    CheckGLError "Texture::createInRenderer() glTexParameteri()" ].

(** The log line and the upload of the uncompressed path. *)
Definition texImageCalls (this : Texture) (convertedData : RawDataRef) : list GLCall :=
  [ wkLog "fmt=%d sb=%d w=%d h=%d => if=%x f=%x t=%x b=%d";
    glTexImage2D GL_TEXTURE_2D 0 (mapInternalFormat (format this) (byteSource this))
                 (width this) (height this) 0
                 (mapGLFormat (format this) (byteSource this))
                 (mapGLType (format this) (byteSource this)) convertedData;
    CheckGLError "Texture::createInRenderer() glTexImage2D()" ].

Definition sizeMismatch : GLCall :=
  wkLogLevel Warn "Texture data size mismatch fmt=%d w=%d h=%d expected=%d actual=%d".

Definition mipmapCalls (this : Texture) : list GLCall :=
  if usesMipmaps this then [glGenerateMipmap GL_TEXTURE_2D] else [].

(** The two ways [createInRenderer] ends once the texture object has been
    allocated.  [finish]: the tail of the function from [if (usesMipmaps)]
    on, after the calls [upload] of the branch taken: the pixel data is
    dropped and the result is [true].  [bail]: a [return false] after the
    calls [last]; handle and pixel data stay as they are. *)
Definition finish (setupInfo : option RenderSetupInfoGLES) (this : TextureGLES)
           (ids : list GLuint) (upload : list GLCall) : Outcome bool :=
  Returned true (mkTextureGLES (reset_texData this) (nextTexID ids)) (tl ids)
           (setupCalls setupInfo this (nextTexID ids) ++ upload ++ mipmapCalls this).

Definition bail (setupInfo : option RenderSetupInfoGLES) (this : TextureGLES)
           (ids : list GLuint) (last : list GLCall) : Outcome bool :=
  Returned false (mkTextureGLES (tex this) (nextTexID ids)) (tl ids)
           (setupCalls setupInfo this (nextTexID ids) ++ last).

(** One member call after another on the same object: the second starts from
    the texture and the allocator state the first one left. *)
Definition andThen {A B : Type} (first : Outcome A)
           (second : TextureGLES -> list GLuint -> Outcome B) : Outcome B :=
  match first with
  | Returned _ t ids log =>
      match second t ids with
      | Returned b t' ids' log' => Returned b t' ids' (log ++ log')
      | NullDeref => NullDeref
      end
  | NullDeref => NullDeref
  end.

Section Lifecycle.

(** [Texture::processData()] lives in Texture.cpp, outside these sources:
    it hands back the pixel data in the layout of [format], or null. *)
Variable processData : Texture -> RawDataRef.

Definition createInRenderer (setupInfo : option RenderSetupInfoGLES)
           (this : TextureGLES) (ids : list GLuint) : Outcome bool :=
  if bool_decide (texData this = None) && negb (isEmptyTexture this)
  then Returned false this ids []
  else if negb (glId this =? 0)
  then Returned true this ids []   (* We'll only create this once *)
  else
    (* Allocate a texture and set up the various params: from here on
       glId is [nextTexID ids] *)
    let convertedData := processData this in
    if bool_decide (texData this <> None) && bool_decide (convertedData = None)
    then bail setupInfo this ids [wkLogLevel Error "TextureGLES::processData Failed"]
    else if isPVRTC this
    then finish setupInfo this ids [wkLogLevel Error "PVRTC not supported"]
    else if isPKM this
    then
      match texData this with
      | None => NullDeref   (* ResolvePKM calls texData->getLen() *)
      | Some d =>
          match ResolvePKM d uninitialised with
          | (Some rawData, refs) =>
              finish setupInfo this ids
                [ glCompressedTexImage2D GL_TEXTURE_2D 0 (pkmType refs)
                                         (width this) (height this) 0 (size refs) rawData;
                  CheckGLError "Texture::createInRenderer() glCompressedTexImage2D()" ]
          | (None, _) =>
              finish setupInfo this ids [wkLogLevel Error "Failed to resolve PKM"]
          end
      end
    else
      let internalFormat := mapInternalFormat (format this) (byteSource this) in
      let glFormat := mapGLFormat (format this) (byteSource this) in
      let glType := mapGLType (format this) (byteSource this) in
      let bytesPerRow := getBytesPerRow (format this) (width this) in
      if negb (internalFormat =? GL_NONE) && negb (glFormat =? GL_NONE)
         && negb (glType =? GL_NONE)
      then
        let expected := CInt.to_ulong (CInt.mul bytesPerRow (height this)) in
        match convertedData with
        | Some cd =>
            if negb (getLen cd =? expected)
            then
              if getLen cd <? expected
              then bail setupInfo this ids [sizeMismatch]
              else finish setupInfo this ids (sizeMismatch :: texImageCalls this convertedData)
            else finish setupInfo this ids (texImageCalls this convertedData)
        | None => finish setupInfo this ids (texImageCalls this convertedData)
        end
      else finish setupInfo this ids [wkLogLevel Error "Unknown texture type %d for GLES"].

Definition destroyInRenderer (setupInfo : option RenderSetupInfoGLES)
           (this : TextureGLES) (ids : list GLuint) : Outcome unit :=
  if negb (glId this =? 0) && bool_decide (is_Some setupInfo)
  then
    (* setupInfo->memManager->removeTexID(glId) *)
    match setupInfo ≫= memManager with
    | Some _ => Returned tt this ids [removeTexID (glId this)]
    | None => NullDeref
    end
  else Returned tt this ids [].

End Lifecycle.

(** ** Geometry manager: scene representations and their removal

    GeometryManager.h declares [GeomSceneRep] and the manager's entry points;
    their bodies (GeometryManager.cpp) are not part of these sources. *)

(** Identifiers are 64-bit integers.  Times, durations and coordinates are
    floating-point numbers in the code and rationals here; all that is done
    with them below is one test against zero and one sum. *)
Definition SimpleIdentity := Z.
Definition TimeInterval := Q.
Definition Point3d : Type := Q * Q * Q.

(** [GeomSceneRep], with the members the header declares. *)
Record GeomSceneRep : Type := mkGeomSceneRep {
  drawIDs : gset Z;
  selectIDs : gset Z;
  ll : Point3d;
  ur : Point3d;
  fade : Q
}.

(** Modelled from the spec: the deferred change records that clearing a scene
    representation emits (GeometryManager.cpp and the ChangeSet classes are
    missing): remove batch, remove selectable, fade to transparent over a
    duration from a start time, and the erasure of a table entry scheduled
    for a later time. *)
Inductive ChangeRequest : Type :=
| RemoveBatch (drawID : SimpleIdentity)
| RemoveSelectable (selectID : SimpleIdentity)
| FadeToTransparent (batches : list SimpleIdentity) (fadeDuration now : TimeInterval)
| EraseEntry (handle : SimpleIdentity) (when : TimeInterval).

(** Modelled from the spec: an entry of the scene representation table (the
    table's code is missing): the representation and, while a fade-out is in
    flight, the time its erasure is scheduled for. *)
Record TableEntry : Type := mkTableEntry {
  sceneRep : GeomSceneRep;
  erasureAt : option TimeInterval
}.

(** Iteration over a [SimpleIDSet] (a [std::set]) is in ascending order. *)
Definition inOrder (ids : gset Z) : list Z := merge_sort Z.le (elements ids).

(** Modelled from the spec: [clearContents(handle, fadeDuration, now)] of the
    scene representation table (section 4.3; its code is missing).  With a
    zero [fadeDuration], or on a handle that is already fading (section 5),
    it emits the immediate removals of every owned batch and selectable and
    erases the entry; otherwise it emits the fade and schedules the erasure,
    and the entry stays in the table. *)
Definition clearContents (table : gmap Z TableEntry) (handle : SimpleIdentity)
           (entry : TableEntry) (fadeDuration now : TimeInterval)
  : gmap Z TableEntry * list ChangeRequest :=
  if Qeq_bool fadeDuration 0 || bool_decide (erasureAt entry <> None)
  then (delete handle table,
        (RemoveBatch <$> inOrder (drawIDs (sceneRep entry)))
          ++ (RemoveSelectable <$> inOrder (selectIDs (sceneRep entry))))
  else (<[handle := mkTableEntry (sceneRep entry) (Some (now + fadeDuration)%Q)]> table,
        [ FadeToTransparent (inOrder (drawIDs (sceneRep entry))) fadeDuration now;
          EraseEntry handle (now + fadeDuration)%Q ]).

(** Modelled from the spec: what [removeGeometry] does for one handle
    (section 4.4; GeometryManager.cpp is missing): an unknown handle is
    skipped, a known one is cleared with the fade-out its representation
    asks for, the changes going to the end of the change set. *)
Definition removeOne (now : TimeInterval)
           (acc : gmap Z TableEntry * list ChangeRequest) (handle : SimpleIdentity)
  : gmap Z TableEntry * list ChangeRequest :=
  match acc.1 !! handle with
  | None => acc
  | Some entry =>
      let '(table', emitted) :=
        clearContents acc.1 handle entry (fade (sceneRep entry)) now in
      (table', acc.2 ++ emitted)
  end.

(** Modelled from the spec: [removeGeometry(handles, changes)]
    (GeometryManager.cpp is missing), over the handles in set order. *)
Definition removeGeometryList (sceneReps : gmap Z TableEntry) (billIDs : list SimpleIdentity)
           (changes : list ChangeRequest) (now : TimeInterval)
  : gmap Z TableEntry * list ChangeRequest :=
  foldl (removeOne now) (sceneReps, changes) billIDs.

(** Modelled from the spec: [removeGeometry] on a handle set
    (GeometryManager.cpp is missing; the header declares it over a
    [SimpleIDSet] and a [ChangeSet] that it extends). *)
Definition removeGeometry (sceneReps : gmap Z TableEntry) (billIDs : gset Z)
           (changes : list ChangeRequest) (now : TimeInterval)
  : gmap Z TableEntry * list ChangeRequest :=
  removeGeometryList sceneReps (inOrder billIDs) changes now.

(** ** Sample resources *)

(** A [processData] that hands the pixel data back as it is. *)
Definition keepData (x : Texture) : RawDataRef := texData x.

(** Set-up information with a pooled allocator, and without one. *)
Definition pooled : RenderSetupInfoGLES := mkSetupInfo (Some TheMemManager).
Definition unpooled : RenderSetupInfoGLES := mkSetupInfo None.

(** A 4 by 4 [TexTypeUnsignedByte] texture over the pixel data [d]. *)
Definition rgba4x4 (d : RawDataRef) : Texture :=
  mkTexture d false TexTypeUnsignedByte WKSingleAlpha 4 4
            false false false false false TexInterpLinear.

(** A 4 by 4 single-channel texture fed from the green channel. *)
Definition green4x4 (d : RawDataRef) : Texture :=
  mkTexture d false TexTypeSingleChannel WKSingleGreen 4 4
            false false false false false TexInterpLinear.

(** A 4 by 4 placeholder: no pixel data, marked empty. *)
Definition empty4x4 : Texture :=
  mkTexture None true TexTypeUnsignedByte WKSingleAlpha 4 4
            false false false false false TexInterpLinear.

(** A texture marked PVRTC, and one marked PKM, over the data [d]. *)
Definition pvrtc8x8 (d : RawDataRef) : Texture :=
  mkTexture d false TexTypeUnsignedByte WKSingleAlpha 8 8
            true false false false false TexInterpLinear.

Definition pkm64x64 (d : RawDataRef) : Texture :=
  mkTexture d false TexTypeUnsignedByte WKSingleAlpha 64 64
            false true false false false TexInterpLinear.

(** [n] zero bytes. *)
Definition zeros (n : nat) : RawData := repeat x00 n.

(** A PKM header (magic, version "20", sub-type, 64 by 64 twice) in front of
    [payload]. *)
Definition pkmFile (subType : byte) (payload : RawData) : RawData :=
  PKM_magic ++ [x32; x30; x00; subType; x00; x40; x00; x40; x00; x40; x00; x40] ++ payload.

(** A scene representation table with one entry, handle 5, that owns batches
    11 and 12 and selectable 21 and asks for no fade-out. *)
Definition rep5 : GeomSceneRep :=
  mkGeomSceneRep {[11; 12]} {[21]} (0, 0, 0)%Q (1, 1, 1)%Q 0%Q.

Definition table5 : gmap Z TableEntry := {[ 5 := mkTableEntry rep5 None ]}.

(** ** Conditions on a scene representation table *)

(** Clearing [handle] removes it at once: its entry, if there is one, asks
    for no fade-out or is already fading. *)
Definition goesNow (table : gmap Z TableEntry) (handle : SimpleIdentity) : Prop :=
  match table !! handle with
  | Some entry =>
      Qeq_bool (fade (sceneRep entry)) 0 || bool_decide (erasureAt entry <> None) = true
  | None => True
  end.

(** ** Conditions on a texture resource *)

(** The texture has something to create from: pixel data, or the
    "empty" mark. *)
Definition creatable (x : Texture) : Prop :=
  texData x <> None \/ isEmptyTexture x = true.

(** The resolver knows the format: none of the three names is [GL_NONE]
    ([supportedb] is the test as [createInRenderer] writes it). *)
Definition supported (x : Texture) : Prop :=
  mapInternalFormat (format x) (byteSource x) <> GL_NONE /\
  mapGLFormat (format x) (byteSource x) <> GL_NONE /\
  mapGLType (format x) (byteSource x) <> GL_NONE.

Definition supportedb (x : Texture) : bool :=
  negb (mapInternalFormat (format x) (byteSource x) =? GL_NONE)
  && negb (mapGLFormat (format x) (byteSource x) =? GL_NONE)
  && negb (mapGLType (format x) (byteSource x) =? GL_NONE).

(** [processData] did not fail: there was nothing to convert, or
    something came out. *)
Definition converts (processData : Texture -> RawDataRef) (x : Texture) : Prop :=
  texData x <> None -> processData x <> None.

(** ** Readings of a call log and of a texture description *)

(** Calls that hand out a texture name. *)
Definition isAllocation (c : GLCall) : bool :=
  match c with
  | getTexID _ => true
  | glGenTextures _ _ => true
  | _ => false
  end.

Definition isMipmap (c : GLCall) : bool :=
  match c with
  | glGenerateMipmap _ => true
  | _ => false
  end.

(** Two textures that differ at most in their pixel data. *)
Definition sameDescription (x y : Texture) : Prop :=
  isEmptyTexture x = isEmptyTexture y /\ format x = format y /\
  byteSource x = byteSource y /\ width x = width y /\ height x = height y /\
  isPVRTC x = isPVRTC y /\ isPKM x = isPKM y /\ usesMipmaps x = usesMipmaps y /\
  wrapU x = wrapU y /\ wrapV x = wrapV y /\ interpType x = interpType y.

(** The size [createInRenderer] compares the converted data with, as the
    code computes it: [bytesPerRow * height] on [int], converted for the
    comparison with [getLen()]. *)
Definition expectedLen (x : Texture) : Z :=
  CInt.to_ulong (CInt.mul (getBytesPerRow (format x) (width x)) (height x)).

(** ** The paths through [createInRenderer]

    Every way the function can end, with the conditions under which it ends
    that way, in the order of the source: the two early returns, the failed
    conversion, the PVRTC branch, the PKM branch (no data to parse, header
    resolved, header rejected) and the uncompressed branch (format unknown
    to the resolver, nothing to upload from, data too short, data of the
    expected size, data too long). *)
Inductive CreatePath (processData : Texture -> RawDataRef)
          (si : option RenderSetupInfoGLES) (this : TextureGLES) (ids : list GLuint)
  : Outcome bool -> Prop :=
| NothingToCreate :
    texData this = None -> isEmptyTexture this = false ->
    CreatePath processData si this ids (Returned false this ids [])
| AlreadyCreated :
    creatable this -> glId this <> 0 ->
    CreatePath processData si this ids (Returned true this ids [])
| ConversionFailed :
    glId this = 0 -> texData this <> None -> processData this = None ->
    CreatePath processData si this ids
               (bail si this ids [wkLogLevel Error "TextureGLES::processData Failed"])
| PvrtcUnsupported :
    creatable this -> glId this = 0 -> converts processData this ->
    isPVRTC this = true ->
    CreatePath processData si this ids
               (finish si this ids [wkLogLevel Error "PVRTC not supported"])
| PkmWithoutData :
    glId this = 0 -> isPVRTC this = false -> isPKM this = true ->
    texData this = None -> isEmptyTexture this = true ->
    CreatePath processData si this ids NullDeref
| PkmResolved (d payload : RawData) (refs : PKMRefs) :
    glId this = 0 -> converts processData this ->
    isPVRTC this = false -> isPKM this = true ->
    texData this = Some d -> ResolvePKM d uninitialised = (Some payload, refs) ->
    CreatePath processData si this ids
               (finish si this ids
                  [ glCompressedTexImage2D GL_TEXTURE_2D 0 (pkmType refs)
                                           (width this) (height this) 0 (size refs) payload;
                    CheckGLError "Texture::createInRenderer() glCompressedTexImage2D()" ])
| PkmUnresolved (d : RawData) :
    glId this = 0 -> converts processData this ->
    isPVRTC this = false -> isPKM this = true ->
    texData this = Some d -> (ResolvePKM d uninitialised).1 = None ->
    CreatePath processData si this ids
               (finish si this ids [wkLogLevel Error "Failed to resolve PKM"])
| UnknownFormat :
    creatable this -> glId this = 0 -> converts processData this ->
    isPVRTC this = false -> isPKM this = false -> supportedb this = false ->
    CreatePath processData si this ids
               (finish si this ids [wkLogLevel Error "Unknown texture type %d for GLES"])
| NoPixels :
    creatable this -> glId this = 0 -> converts processData this ->
    isPVRTC this = false -> isPKM this = false -> supported this ->
    processData this = None ->
    CreatePath processData si this ids (finish si this ids (texImageCalls this None))
| ShortData (cd : RawData) :
    creatable this -> glId this = 0 ->
    isPVRTC this = false -> isPKM this = false -> supported this ->
    processData this = Some cd -> getLen cd < expectedLen this ->
    CreatePath processData si this ids (bail si this ids [sizeMismatch])
| ExactData (cd : RawData) :
    creatable this -> glId this = 0 ->
    isPVRTC this = false -> isPKM this = false -> supported this ->
    processData this = Some cd -> getLen cd = expectedLen this ->
    CreatePath processData si this ids
               (finish si this ids (texImageCalls this (Some cd)))
| SurplusData (cd : RawData) :
    creatable this -> glId this = 0 ->
    isPVRTC this = false -> isPKM this = false -> supported this ->
    processData this = Some cd -> expectedLen this < getLen cd ->
    CreatePath processData si this ids
               (finish si this ids (sizeMismatch :: texImageCalls this (Some cd))).

Arguments CInt.to_int : simpl never.
Arguments CInt.mul : simpl never.
Arguments CInt.div : simpl never.
Arguments CInt.to_ulong : simpl never.

(** * Properties *)

(** ** Machine integers *)

Lemma to_int_id (z : Z) : CInt.INT_MIN <= z <= CInt.INT_MAX -> CInt.to_int z = z.
Proof.
  unfold CInt.to_int, CInt.INT_MIN, CInt.INT_MAX. intros Hz.
  change (2 ^ 31) with 2147483648. change (2 ^ 32) with 4294967296.
  rewrite Z.mod_small; lia.
Qed.

Lemma mul_exact (a b : Z) : 0 <= a * b <= CInt.INT_MAX -> CInt.mul a b = a * b.
Proof.
  intros H. apply to_int_id. unfold CInt.INT_MIN, CInt.INT_MAX in *. lia.
Qed.

Lemma to_ulong_id (z : Z) : 0 <= z <= CInt.INT_MAX -> CInt.to_ulong z = z.
Proof.
  unfold CInt.to_ulong, CInt.INT_MAX. intros Hz.
  change (2 ^ 64) with 18446744073709551616.
  rewrite Z.mod_small; lia.
Qed.

Lemma div_two (z : Z) : 0 <= z -> CInt.div z 2 = z / 2.
Proof. intros Hz. unfold CInt.div. apply Z.quot_div_nonneg; lia. Qed.

(** ** Bytes *)

Lemma byte_val_range (b : byte) : 0 <= byte_val b < 256.
Proof.
  unfold byte_val. pose proof (Byte.to_N_bounded b) as Hb. lia.
Qed.

Lemma byte_val_inj (a b : byte) : byte_val a = byte_val b -> a = b.
Proof.
  unfold byte_val. intros H. apply N2Z.inj in H.
  pose proof (Byte.of_to_N a) as Ha. pose proof (Byte.of_to_N b) as Hb.
  rewrite H in Ha. congruence.
Qed.

Lemma byte_eqb_eq (a b : byte) : Byte.eqb a b = true <-> a = b.
Proof.
  split; [apply Byte.byte_dec_bl | apply Byte.byte_dec_lb].
Qed.

(** Two bytes glued with shift and or are the big-endian number they spell. *)
Lemma shift_or_be16 (hi lo : Z) :
  0 <= hi -> 0 <= lo < 256 -> Z.lor (Z.shiftl hi 8) lo = 256 * hi + lo.
Proof.
  intros Hhi Hlo.
  assert (Hland : Z.land (Z.shiftl hi 8) lo = 0).
  { apply Z.bits_inj'. intros n Hn.
    rewrite Z.land_spec, Z.bits_0.
    destruct (Z.lt_ge_cases n 8) as [Hlt | Hge].
    - rewrite Z.shiftl_spec_low by lia. reflexivity.
    - destruct (Z.eq_dec lo 0) as [-> | Hnz].
      + rewrite Z.bits_0. apply andb_false_r.
      + rewrite (Z.bits_above_log2 lo n); [apply andb_false_r | lia |].
        assert (Z.log2 lo < 8); [| lia].
        apply Z.log2_lt_pow2; [lia |]. change (2 ^ 8) with 256. lia. }
  pose proof (Z.add_lor_land (Z.shiftl hi 8) lo) as Hadd.
  rewrite Hland, Z.add_0_r in Hadd. rewrite Hadd.
  rewrite Z.shiftl_mul_pow2 by lia. change (2 ^ 8) with 256. lia.
Qed.

Lemma header_be16 (header : RawData) (i j : nat) :
  Z.lor (Z.shiftl (header_at header i) 8) (header_at header j)
  = 256 * header_at header i + header_at header j.
Proof.
  unfold header_at. apply shift_or_be16; apply byte_val_range.
Qed.

Lemma header_at_lookup (header : RawData) (i : nat) (b : byte) :
  header !! i = Some b -> header_at header i = byte_val b.
Proof.
  intros H. unfold header_at. f_equal. apply nth_lookup_Some with (d := x00) in H. exact H.
Qed.

(** ** The magic number *)

Lemma strncmp_magic (header : RawData) :
  (4 <= length header)%nat ->
  strncmp header PKM_magic 4 = 0 <-> take 4 header = PKM_magic.
Proof.
  intros Hlen.
  destruct header as [|c0 [|c1 [|c2 [|c3 rest]]]]; simpl in Hlen; try lia.
  unfold PKM_magic. cbn [strncmp take hd tl firstn].
  assert (Hstep : forall (c m : byte) (k : Z),
             m <> x00 ->
             (if negb (Byte.eqb c m) then byte_val c - byte_val m
              else if Byte.eqb c x00 then 0 else k) = 0 <-> c = m /\ k = 0).
  { intros c m k Hm. destruct (Byte.eqb c m) eqn:E; cbn [negb].
    - apply byte_eqb_eq in E. subst c.
      destruct (Byte.eqb m x00) eqn:E0.
      + apply byte_eqb_eq in E0. contradiction.
      + tauto.
    - split.
      + intros Hd. assert (byte_val c = byte_val m) as Hv by lia.
        apply byte_val_inj in Hv. apply byte_eqb_eq in Hv. congruence.
      + intros [-> _]. rewrite (proj2 (byte_eqb_eq m m) eq_refl) in E. discriminate. }
  rewrite !Hstep by discriminate.
  split.
  - intros (-> & -> & -> & -> & _). reflexivity.
  - intros [= -> -> -> ->]. tauto.
Qed.

(** ** The PKM header parser *)

Lemma ResolvePKM_short (texData : RawData) (refs : PKMRefs) :
  getLen texData < 16 -> ResolvePKM texData refs = (None, refs).
Proof.
  intros H. unfold ResolvePKM.
  destruct (Z.ltb_spec (getLen texData) 16); [reflexivity | lia].
Qed.

Lemma ResolvePKM_bad_magic (texData : RawData) (refs : PKMRefs) :
  take 4 texData <> PKM_magic -> ResolvePKM texData refs = (None, refs).
Proof.
  intros H. unfold ResolvePKM.
  destruct (Z.ltb_spec (getLen texData) 16) as [Hlt | Hge]; [reflexivity |].
  destruct (Z.eqb_spec (strncmp texData PKM_magic 4) 0) as [E | E]; [| reflexivity].
  apply strncmp_magic in E; [contradiction | unfold getLen in Hge; lia].
Qed.

(** With a full header and the right magic, the outcome is that of the
    [switch] on the sub-type byte. *)
Lemma ResolvePKM_valid (texData : RawData) (refs : PKMRefs) :
  16 <= getLen texData -> take 4 texData = PKM_magic ->
  ResolvePKM texData refs =
    let w := 256 * header_at texData 8 + header_at texData 9 in
    let h := 256 * header_at texData 10 + header_at texData 11 in
    let st := resolveGLType (header_at texData 7) w h (size refs) in
    if st.2 =? -1
    then (None, mkPKMRefs (pkmType refs) st.1 w h)
    else (Some (drop 16 texData), mkPKMRefs st.2 st.1 w h).
Proof.
  intros Hlen Hmagic. unfold ResolvePKM.
  destruct (Z.ltb_spec (getLen texData) 16) as [Hlt | _]; [lia |].
  assert (strncmp texData PKM_magic 4 = 0) as ->.
  { apply strncmp_magic; [unfold getLen in Hlen; lia | exact Hmagic]. }
  cbn [Z.eqb negb]. rewrite !header_be16. cbv zeta.
  destruct (resolveGLType _ _ _ _) as [sz ty]. reflexivity.
Qed.

Lemma resolveGLType_beyond (type width height size0 : Z) :
  8 < type -> resolveGLType type width height size0 = (size0, -1).
Proof.
  intros Hbig.
  destruct type as [|[[[[]|[]|]|[[]|[]|]|]|[[[]|[]|]|[[]|[]|]|]|]|];
    try reflexivity; lia.
Qed.

Lemma header_dims_range (texData : RawData) (i j : nat) :
  0 <= 256 * header_at texData i + header_at texData j <= 65535.
Proof.
  unfold header_at.
  pose proof (byte_val_range (nth i texData x00)).
  pose proof (byte_val_range (nth j texData x00)). lia.
Qed.

(** C6: the parser fails when the input is shorter than the 16-byte header
    or does not start with the magic "PKM "; otherwise the width it extracts
    is the big-endian 16-bit number in bytes 8-9 and the height the one in
    bytes 10-11. *)
Theorem ResolvePKM_header (texData : RawData) (refs : PKMRefs) :
  (getLen texData < 16 \/ take 4 texData <> PKM_magic ->
   ResolvePKM texData refs = (None, refs)) /\
  (forall b8 b9 b10 b11 : byte,
      16 <= getLen texData -> take 4 texData = PKM_magic ->
      texData !! 8%nat = Some b8 -> texData !! 9%nat = Some b9 ->
      texData !! 10%nat = Some b10 -> texData !! 11%nat = Some b11 ->
      pkmWidth (ResolvePKM texData refs).2 = 256 * byte_val b8 + byte_val b9 /\
      pkmHeight (ResolvePKM texData refs).2 = 256 * byte_val b10 + byte_val b11).
Proof.
  split.
  - intros [Hshort | Hmagic].
    + apply ResolvePKM_short, Hshort.
    + apply ResolvePKM_bad_magic, Hmagic.
  - intros b8 b9 b10 b11 Hlen Hmagic H8 H9 H10 H11.
    rewrite (ResolvePKM_valid _ _ Hlen Hmagic).
    rewrite (header_at_lookup _ _ _ H8), (header_at_lookup _ _ _ H9),
      (header_at_lookup _ _ _ H10), (header_at_lookup _ _ _ H11).
    cbv zeta.
    destruct (_ =? -1); split; reflexivity.
Qed.

Lemma ResolvePKM_header_witness :
  ResolvePKM (zeros 15) uninitialised = (None, uninitialised) /\
  pkmWidth (ResolvePKM (pkmFile x01 (zeros 8)) uninitialised).2
  = 256 * byte_val x00 + byte_val x40 /\
  pkmHeight (ResolvePKM (pkmFile x01 (zeros 8)) uninitialised).2
  = 256 * byte_val x00 + byte_val x40.
Proof.
  split.
  - apply (proj1 (ResolvePKM_header (zeros 15) uninitialised)).
    left. reflexivity.
  - apply (proj2 (ResolvePKM_header (pkmFile x01 (zeros 8)) uninitialised)
                 x00 x40 x00 x40); first [reflexivity | vm_compute; discriminate].
Defined.

(** C7: with a full header and the right magic, the sub-type byte at offset 7
    selects, through a fixed table, the compression kind and the payload
    size: [width * height / 2] for sub-types 1, 4, 5 and 7, [width * height]
    for 3, 6 and 8 (products on [int]; the exact ones as long as they fit).
    Of the sub-types the table lists (0 to 8) exactly 0 and 2 make the parse
    fail, and so does every value the table does not list.  A 64 by 64
    header of sub-type 1 gives size 2048 and a kind; sub-type 2 fails. *)
Theorem ResolvePKM_subtype (texData : RawData) (refs : PKMRefs) :
  16 <= getLen texData -> take 4 texData = PKM_magic ->
  let type := header_at texData 7 in
  let ptr := (ResolvePKM texData refs).1 in
  let out := (ResolvePKM texData refs).2 in
  let w := pkmWidth out in
  let h := pkmHeight out in
  (type = 1 \/ type = 4 \/ type = 5 \/ type = 7 ->
   ptr = Some (drop 16 texData) /\
   size out = CInt.div (CInt.mul w h) 2 /\
   (w * h <= CInt.INT_MAX -> size out = w * h / 2)) /\
  (type = 3 \/ type = 6 \/ type = 8 ->
   ptr = Some (drop 16 texData) /\
   size out = CInt.mul w h /\
   (w * h <= CInt.INT_MAX -> size out = w * h)) /\
  (type = 1 -> pkmType out = GL_COMPRESSED_RGB8_ETC2) /\
  (type = 3 -> pkmType out = GL_COMPRESSED_RGBA8_ETC2_EAC) /\
  (type = 4 -> pkmType out = GL_COMPRESSED_RGB8_PUNCHTHROUGH_ALPHA1_ETC2) /\
  (type = 5 -> pkmType out = GL_COMPRESSED_R11_EAC) /\
  (type = 6 -> pkmType out = GL_COMPRESSED_RG11_EAC) /\
  (type = 7 -> pkmType out = GL_COMPRESSED_SIGNED_R11_EAC) /\
  (type = 8 -> pkmType out = GL_COMPRESSED_SIGNED_RG11_EAC) /\
  (0 <= type <= 8 -> (ptr = None <-> type = 0 \/ type = 2)) /\
  (8 < type -> ptr = None) /\
  (type = 1 -> w = 64 -> h = 64 ->
   size out = 2048 /\ pkmType out <> -1 /\ ptr = Some (drop 16 texData)) /\
  (type = 2 -> ptr = None).
Proof.
  intros Hlen Hmagic. cbv zeta.
  rewrite (ResolvePKM_valid _ _ Hlen Hmagic). cbv zeta.
  pose proof (header_dims_range texData 8 9) as Hw.
  pose proof (header_dims_range texData 10 11) as Hh.
  pose proof (byte_val_range (nth 7 texData x00)) as Ht.
  fold (header_at texData 7) in Ht.
  set (w := 256 * header_at texData 8 + header_at texData 9) in *.
  set (h := 256 * header_at texData 10 + header_at texData 11) in *.
  assert (Hexact : w * h <= CInt.INT_MAX -> CInt.mul w h = w * h).
  { intros Hfit. apply mul_exact. nia. }
  assert (Hhalf : w * h <= CInt.INT_MAX -> CInt.div (CInt.mul w h) 2 = w * h / 2).
  { intros Hfit. rewrite (Hexact Hfit). apply div_two. nia. }
  assert (Hcases : header_at texData 7 = 0 \/ header_at texData 7 = 1
                   \/ header_at texData 7 = 2 \/ header_at texData 7 = 3
                   \/ header_at texData 7 = 4 \/ header_at texData 7 = 5
                   \/ header_at texData 7 = 6 \/ header_at texData 7 = 7
                   \/ header_at texData 7 = 8 \/ 8 < header_at texData 7) by lia.
  destruct Hcases as [E|[E|[E|[E|[E|[E|[E|[E|[E|E]]]]]]]]].
  10: rewrite (resolveGLType_beyond _ w h (size refs) E).
  1-9: rewrite E.
  all: cbn [resolveGLType fst snd Z.eqb Pos.eqb pkmType size pkmWidth pkmHeight
            GL_COMPRESSED_RGB8_ETC2 GL_COMPRESSED_RGBA8_ETC2_EAC
            GL_COMPRESSED_RGB8_PUNCHTHROUGH_ALPHA1_ETC2 GL_COMPRESSED_R11_EAC
            GL_COMPRESSED_RG11_EAC GL_COMPRESSED_SIGNED_R11_EAC
            GL_COMPRESSED_SIGNED_RG11_EAC].
  all: repeat match goal with
         | |- _ /\ _ => split
         | |- _ <-> _ => split
         | |- _ -> _ => intro
         end.
  all: try reflexivity.
  all: try lia.
  all: try discriminate.
  all: try (apply Hhalf; assumption).
  all: try (apply Hexact; assumption).
  all: try (subst w h; match goal with
            | Hw' : _ = 64, Hh' : _ = 64 |- _ => rewrite Hw', Hh'; reflexivity
            end).
Qed.

Lemma ResolvePKM_subtype_witness :
  size (ResolvePKM (pkmFile x01 (zeros 8)) uninitialised).2 = 2048 /\
  pkmType (ResolvePKM (pkmFile x01 (zeros 8)) uninitialised).2 <> -1 /\
  (ResolvePKM (pkmFile x01 (zeros 8)) uninitialised).1
  = Some (drop 16 (pkmFile x01 (zeros 8))).
Proof.
  refine (proj1 (proj2 (proj2 (proj2 (proj2 (proj2 (proj2 (proj2 (proj2 (proj2 (proj2
           (proj2 (ResolvePKM_subtype (pkmFile x01 (zeros 8)) uninitialised _ _))))))))))))
         _ _ _);
    first [reflexivity | vm_compute; discriminate].
Defined.

(** ** The calls around the upload *)

Lemma setupCalls_quiet (si : option RenderSetupInfoGLES) (x : Texture) (id : GLuint) :
  existsb isUpload (setupCalls si x id) = false /\
  existsb isRelease (setupCalls si x id) = false /\
  existsb isErrorLog (setupCalls si x id) = false /\
  existsb isWarnLog (setupCalls si x id) = false.
Proof.
  unfold setupCalls.
  destruct (hasMemManager si), (usesMipmaps x); repeat split; reflexivity.
Qed.

Lemma mipmapCalls_quiet (x : Texture) :
  existsb isUpload (mipmapCalls x) = false /\
  existsb isRelease (mipmapCalls x) = false /\
  existsb isErrorLog (mipmapCalls x) = false /\
  existsb isWarnLog (mipmapCalls x) = false.
Proof.
  unfold mipmapCalls. destruct (usesMipmaps x); repeat split; reflexivity.
Qed.

Lemma existsb_setup_app (p : GLCall -> bool) (si : option RenderSetupInfoGLES)
      (x : Texture) (id : GLuint) (rest : list GLCall) :
  existsb p (setupCalls si x id) = false ->
  existsb p (setupCalls si x id ++ rest) = existsb p rest.
Proof. intros H. rewrite existsb_app, H. reflexivity. Qed.

Lemma existsb_mipmap_app (p : GLCall -> bool) (x : Texture) (l : list GLCall) :
  existsb p (mipmapCalls x) = false ->
  existsb p (l ++ mipmapCalls x) = existsb p l.
Proof. intros H. rewrite existsb_app, H. apply orb_false_r. Qed.

(** What a finished creation logged, seen through a predicate that the
    set-up and mip-map calls do not satisfy. *)
Lemma finish_log (p : GLCall -> bool) (si : option RenderSetupInfoGLES)
      (x : Texture) (id : GLuint) (upload : list GLCall) :
  existsb p (setupCalls si x id) = false ->
  existsb p (mipmapCalls x) = false ->
  existsb p (setupCalls si x id ++ upload ++ mipmapCalls x) = existsb p upload.
Proof.
  intros Hs Hm. rewrite existsb_setup_app by exact Hs.
  apply existsb_mipmap_app, Hm.
Qed.

(** ** Paths through [createInRenderer] *)

Section LifecycleFacts.

Variable processData : Texture -> RawDataRef.

Lemma creatable_guard (x : Texture) :
  creatable x ->
  bool_decide (texData x = None) && negb (isEmptyTexture x) = false.
Proof.
  intros [H | H].
  - rewrite bool_decide_eq_false_2 by exact H. reflexivity.
  - rewrite H. apply andb_false_r.
Qed.

Lemma create_no_data si (this : TextureGLES) ids :
  texData this = None -> isEmptyTexture this = false ->
  createInRenderer processData si this ids = Returned false this ids [].
Proof.
  intros Hd He. unfold createInRenderer.
  rewrite bool_decide_eq_true_2 by exact Hd. rewrite He. reflexivity.
Qed.

Lemma create_created si (this : TextureGLES) ids :
  creatable this -> glId this <> 0 ->
  createInRenderer processData si this ids = Returned true this ids [].
Proof.
  intros Hc Hid. unfold createInRenderer.
  rewrite creatable_guard by exact Hc.
  destruct (Z.eqb_spec (glId this) 0); [contradiction | reflexivity].
Qed.

(** The steps every path of a pending, creatable texture starts with. *)
Ltac enter Hc Hid :=
  unfold createInRenderer;
  rewrite (creatable_guard _ Hc), Hid;
  cbn [Z.eqb negb].

Lemma create_conversion_failed si (this : TextureGLES) ids :
  glId this = 0 -> texData this <> None -> processData this = None ->
  createInRenderer processData si this ids
  = bail si this ids [wkLogLevel Error "TextureGLES::processData Failed"].
Proof.
  intros Hid Hd Hp. enter (or_introl Hd : creatable this) Hid.
  rewrite bool_decide_eq_true_2 by exact Hd.
  rewrite bool_decide_eq_true_2 by exact Hp. reflexivity.
Qed.

Lemma converts_guard (x : Texture) :
  converts processData x ->
  bool_decide (texData x <> None) && bool_decide (processData x = None) = false.
Proof.
  intros H. destruct (decide (texData x = None)) as [E | E].
  - rewrite bool_decide_eq_false_2 by (intros Hn; exact (Hn E)). reflexivity.
  - rewrite (bool_decide_eq_false_2 (processData x = None)) by exact (H E).
    apply andb_false_r.
Qed.

Lemma create_PVRTC si (this : TextureGLES) ids :
  creatable this -> glId this = 0 -> converts processData this -> isPVRTC this = true ->
  createInRenderer processData si this ids = finish si this ids [wkLogLevel Error "PVRTC not supported"].
Proof.
  intros Hc Hid Hv Hp. enter Hc Hid.
  rewrite (converts_guard _ Hv), Hp. reflexivity.
Qed.

Lemma create_PKM_unresolved si (this : TextureGLES) ids d :
  glId this = 0 -> converts processData this -> isPVRTC this = false -> isPKM this = true ->
  texData this = Some d -> (ResolvePKM d uninitialised).1 = None ->
  createInRenderer processData si this ids = finish si this ids [wkLogLevel Error "Failed to resolve PKM"].
Proof.
  intros Hid Hv Hp Hk Hd Hr.
  assert (Hc : creatable this) by (left; rewrite Hd; discriminate).
  enter Hc Hid. rewrite (converts_guard _ Hv), Hp, Hk, Hd.
  destruct (ResolvePKM d uninitialised) as [[raw|] refs]; [discriminate | reflexivity].
Qed.

Lemma create_PKM_no_data si (this : TextureGLES) ids :
  glId this = 0 -> isPVRTC this = false -> isPKM this = true ->
  texData this = None -> isEmptyTexture this = true ->
  createInRenderer processData si this ids = NullDeref.
Proof.
  intros Hid Hp Hk Hd He.
  assert (Hc : creatable this) by (right; exact He).
  enter Hc Hid. rewrite Hd.
  rewrite bool_decide_eq_false_2 by (intros Hn; exact (Hn eq_refl)).
  cbn [andb]. rewrite Hp, Hk. reflexivity.
Qed.

Lemma supportedb_true (x : Texture) : supported x -> supportedb x = true.
Proof.
  intros (H1 & H2 & H3). unfold supportedb.
  apply Z.eqb_neq in H1, H2, H3. rewrite H1, H2, H3. reflexivity.
Qed.

Lemma supportedb_false (x : Texture) :
  mapInternalFormat (format x) (byteSource x) = GL_NONE \/
  mapGLFormat (format x) (byteSource x) = GL_NONE \/
  mapGLType (format x) (byteSource x) = GL_NONE ->
  supportedb x = false.
Proof.
  unfold supportedb. intros [H | [H | H]]; rewrite H; cbn [Z.eqb GL_NONE negb andb].
  - reflexivity.
  - apply andb_false_intro1, andb_false_r.
  - apply andb_false_r.
Qed.

Lemma create_unknown_format si (this : TextureGLES) ids :
  creatable this -> glId this = 0 -> converts processData this ->
  isPVRTC this = false -> isPKM this = false -> supportedb this = false ->
  createInRenderer processData si this ids
  = finish si this ids [wkLogLevel Error "Unknown texture type %d for GLES"].
Proof.
  intros Hc Hid Hv Hp Hk Hs. enter Hc Hid.
  rewrite (converts_guard _ Hv), Hp, Hk.
  unfold supportedb in Hs. rewrite Hs. reflexivity.
Qed.

(** The uncompressed path of a supported format, as the size check decides
    it.  [expected] is [bytesPerRow * height] as the code computes it. *)
Lemma create_uncompressed si (this : TextureGLES) ids :
  creatable this -> glId this = 0 -> converts processData this ->
  isPVRTC this = false -> isPKM this = false -> supported this ->
  let expected :=
    CInt.to_ulong (CInt.mul (getBytesPerRow (format this) (width this)) (height this)) in
  createInRenderer processData si this ids =
    match processData this with
    | Some cd =>
        if getLen cd <? expected then bail si this ids [sizeMismatch]
        else if getLen cd =? expected
             then finish si this ids (texImageCalls this (Some cd))
             else finish si this ids (sizeMismatch :: texImageCalls this (Some cd))
    | None => finish si this ids (texImageCalls this None)
    end.
Proof.
  intros Hc Hid Hv Hp Hk Hs expected. enter Hc Hid.
  rewrite (converts_guard _ Hv), Hp, Hk.
  pose proof (supportedb_true _ Hs) as Hb. unfold supportedb in Hb. rewrite Hb.
  cbv zeta. fold expected.
  destruct (processData this) as [cd |]; [| reflexivity].
  destruct (Z.ltb_spec (getLen cd) expected), (Z.eqb_spec (getLen cd) expected);
    try reflexivity; lia.
Qed.

End LifecycleFacts.

(** ** The size check of the uncompressed path *)

Lemma expected_exact (bytesPerRow h : Z) :
  0 <= bytesPerRow * h <= CInt.INT_MAX ->
  CInt.to_ulong (CInt.mul bytesPerRow h) = bytesPerRow * h.
Proof.
  intros H. rewrite mul_exact by exact H. apply to_ulong_id, H.
Qed.

Ltac quiet := first [apply setupCalls_quiet | apply mipmapCalls_quiet].

(** Reads a property of the calls of [finish] or [bail] off the calls of the
    branch taken. *)
Ltac read_log :=
  unfold finish, bail;
  repeat first
    [ rewrite finish_log by quiet
    | rewrite existsb_setup_app by quiet ].

Section SizeCheck.

Variable processData : Texture -> RawDataRef.
Variable si : option RenderSetupInfoGLES.
Variable this : TextureGLES.
Variable ids : list GLuint.
Variable cd : RawData.

Hypothesis Hcreatable : creatable this.
Hypothesis Hpending : glId this = 0.
Hypothesis HnotPVRTC : isPVRTC this = false.
Hypothesis HnotPKM : isPKM this = false.
Hypothesis Hsupported : supported this.
Hypothesis Hconverted : processData this = Some cd.

Let expected : Z := getBytesPerRow (format this) (width this) * height this.

Hypothesis Hrange : 0 <= expected <= CInt.INT_MAX.

Lemma converted_converts : converts processData this.
Proof using Hconverted. intros _. rewrite Hconverted. discriminate. Qed.

Lemma create_short :
  getLen cd < expected ->
  createInRenderer processData si this ids = bail si this ids [sizeMismatch].
Proof using All.
  intros Hlt.
  rewrite create_uncompressed by auto using converted_converts.
  cbv zeta. rewrite Hconverted, expected_exact by exact Hrange. fold expected.
  destruct (Z.ltb_spec (getLen cd) expected); [reflexivity | lia].
Qed.

Lemma create_surplus :
  expected < getLen cd ->
  createInRenderer processData si this ids
  = finish si this ids (sizeMismatch :: texImageCalls this (Some cd)).
Proof using All.
  intros Hgt.
  rewrite create_uncompressed by auto using converted_converts.
  cbv zeta. rewrite Hconverted, expected_exact by exact Hrange. fold expected.
  destruct (Z.ltb_spec (getLen cd) expected); [lia |].
  destruct (Z.eqb_spec (getLen cd) expected); [lia | reflexivity].
Qed.

Lemma create_exact :
  getLen cd = expected ->
  createInRenderer processData si this ids
  = finish si this ids (texImageCalls this (Some cd)).
Proof using All.
  intros Heq.
  rewrite create_uncompressed by auto using converted_converts.
  cbv zeta. rewrite Hconverted, expected_exact by exact Hrange. fold expected.
  destruct (Z.ltb_spec (getLen cd) expected); [lia |].
  destruct (Z.eqb_spec (getLen cd) expected); [reflexivity | lia].
Qed.

End SizeCheck.

Lemma unsigned_byte_supported (x : Texture) :
  format x = TexTypeUnsignedByte -> supported x.
Proof. intros H. unfold supported. rewrite H. repeat split; discriminate. Qed.

(** C3: on the uncompressed path of a supported format (the texture is
    pending and has something to create from), the converted pixel data is
    checked against [bytesPerRow(width) * height] before the upload: fewer
    bytes make [createInRenderer] return false without any upload, more
    bytes only log a warning and the upload goes ahead to success.  For a
    4 by 4 [TexTypeUnsignedByte] texture whose data is used as it is, one
    byte too few fails and one byte too many succeeds. *)
Theorem createInRenderer_size_check :
  (forall (processData : Texture -> RawDataRef) (si : option RenderSetupInfoGLES)
          (this : TextureGLES) (ids : list GLuint) (cd : RawData),
      creatable this -> glId this = 0 ->
      isPVRTC this = false -> isPKM this = false -> supported this ->
      processData this = Some cd ->
      0 <= getBytesPerRow (format this) (width this) * height this <= CInt.INT_MAX ->
      (getLen cd < getBytesPerRow (format this) (width this) * height this ->
       exists t' ids' log,
         createInRenderer processData si this ids = Returned false t' ids' log /\
         existsb isUpload log = false) /\
      (getBytesPerRow (format this) (width this) * height this < getLen cd ->
       exists t' ids' log,
         createInRenderer processData si this ids = Returned true t' ids' log /\
         existsb isWarnLog log = true /\
         existsb isErrorLog log = false /\
         existsb isUpload log = true)) /\
  (forall (processData : Texture -> RawDataRef) (si : option RenderSetupInfoGLES)
          (this : TextureGLES) (ids : list GLuint) (d : RawData),
      glId this = 0 -> isPVRTC this = false -> isPKM this = false ->
      format this = TexTypeUnsignedByte -> width this = 4 -> height this = 4 ->
      texData this = Some d -> processData this = Some d ->
      (getLen d = getBytesPerRow TexTypeUnsignedByte 4 * 4 - 1 ->
       exists t' ids' log,
         createInRenderer processData si this ids = Returned false t' ids' log) /\
      (getLen d = getBytesPerRow TexTypeUnsignedByte 4 * 4 + 1 ->
       exists t' ids' log,
         createInRenderer processData si this ids = Returned true t' ids' log /\
         existsb isWarnLog log = true)).
Proof.
  split.
  - intros processData si this ids cd Hc Hid Hp Hk Hs Hcd Hrange. split.
    + intros Hlt. rewrite (create_short processData si this ids cd) by assumption.
      do 3 eexists. split; [reflexivity |]. read_log. reflexivity.
    + intros Hgt. rewrite (create_surplus processData si this ids cd) by assumption.
      do 3 eexists. split; [reflexivity |]. read_log. repeat split; reflexivity.
  - intros processData si this ids d Hid Hp Hk Hf Hw Hh Hd Hcd.
    assert (Hc : creatable this) by (left; rewrite Hd; discriminate).
    pose proof (unsigned_byte_supported this Hf) as Hs.
    assert (Hbpr : getBytesPerRow (format this) (width this) * height this = 16)
      by (rewrite Hf, Hw, Hh; reflexivity).
    assert (Hrange : 0 <= getBytesPerRow (format this) (width this) * height this
                     <= CInt.INT_MAX)
      by (rewrite Hbpr; unfold CInt.INT_MAX; lia).
    change (getBytesPerRow TexTypeUnsignedByte 4 * 4) with 16.
    split.
    + intros Hlen. rewrite (create_short processData si this ids d) by (auto; lia).
      do 3 eexists. reflexivity.
    + intros Hlen. rewrite (create_surplus processData si this ids d) by (auto; lia).
      do 3 eexists. split; [reflexivity |]. read_log. reflexivity.
Qed.

Lemma createInRenderer_size_check_witness :
  (exists t' ids' log,
      createInRenderer keepData None (mkTextureGLES (rgba4x4 (Some (zeros 15))) 0) [7]
      = Returned false t' ids' log /\ existsb isUpload log = false) /\
  (exists t' ids' log,
      createInRenderer keepData (Some pooled) (mkTextureGLES (rgba4x4 (Some (zeros 17))) 0) [7]
      = Returned true t' ids' log /\ existsb isWarnLog log = true).
Proof.
  split.
  - refine (proj1 (proj1 createInRenderer_size_check keepData None
                         (mkTextureGLES (rgba4x4 (Some (zeros 15))) 0) [7] (zeros 15)
                         _ _ _ _ _ _ _) _).
    + left. discriminate.
    + reflexivity.
    + reflexivity.
    + reflexivity.
    + apply unsigned_byte_supported. reflexivity.
    + reflexivity.
    + vm_compute. split; discriminate.
    + reflexivity.
  - refine (proj2 (proj2 createInRenderer_size_check keepData (Some pooled)
                         (mkTextureGLES (rgba4x4 (Some (zeros 17))) 0) [7] (zeros 17)
                         _ _ _ _ _ _ _ _) _); reflexivity.
Defined.

(** ** Releasing the native handle *)

Lemma destroy_pooled (si : RenderSetupInfoGLES) (mm : OpenGLMemManager)
      (this : TextureGLES) (ids : list GLuint) :
  glId this <> 0 -> memManager si = Some mm ->
  destroyInRenderer (Some si) this ids = Returned tt this ids [removeTexID (glId this)].
Proof.
  intros Hid Hmm. unfold destroyInRenderer.
  destruct (Z.eqb_spec (glId this) 0) as [E | _]; [contradiction |].
  rewrite bool_decide_eq_true_2 by (eexists; reflexivity).
  cbn [negb andb mbind option_bind]. rewrite Hmm. reflexivity.
Qed.

Lemma destroy_without_setup (this : TextureGLES) (ids : list GLuint) :
  destroyInRenderer None this ids = Returned tt this ids [].
Proof.
  unfold destroyInRenderer.
  rewrite (bool_decide_eq_false_2 (is_Some None)) by (intros [x Hx]; discriminate).
  rewrite andb_false_r. reflexivity.
Qed.

(** [createInRenderer] asks whether there is a memory manager before it uses
    it; [destroyInRenderer] does not. *)
Lemma destroy_without_manager (si : RenderSetupInfoGLES) (this : TextureGLES)
      (ids : list GLuint) :
  glId this <> 0 -> memManager si = None ->
  destroyInRenderer (Some si) this ids = NullDeref.
Proof.
  intros Hid Hmm. unfold destroyInRenderer.
  destruct (Z.eqb_spec (glId this) 0) as [E | _]; [contradiction |].
  rewrite bool_decide_eq_true_2 by (eexists; reflexivity).
  cbn [negb andb mbind option_bind]. rewrite Hmm. reflexivity.
Qed.

Example destroy_unpooled :
  destroyInRenderer (Some unpooled) (mkTextureGLES (rgba4x4 None) 7) [] = NullDeref.
Proof. reflexivity. Qed.

(** C1, as the code has it: [destroyInRenderer] never changes the texture
    resource, so the handle of a created texture stays non-zero and nothing
    records that it was released.  With set-up information that has a memory
    manager every call hands the handle to [removeTexID]: two calls in a row
    release it twice.  Without set-up information a call does nothing. *)
Theorem destroyInRenderer_twice (si : RenderSetupInfoGLES) (mm : OpenGLMemManager)
        (this : TextureGLES) (ids : list GLuint) :
  glId this <> 0 -> memManager si = Some mm ->
  destroyInRenderer (Some si) this ids
  = Returned tt this ids [removeTexID (glId this)] /\
  andThen (destroyInRenderer (Some si) this ids) (destroyInRenderer (Some si))
  = Returned tt this ids [removeTexID (glId this); removeTexID (glId this)] /\
  andThen (destroyInRenderer None this ids) (destroyInRenderer None)
  = Returned tt this ids [].
Proof.
  intros Hid Hmm. split; [| split].
  - exact (destroy_pooled si mm this ids Hid Hmm).
  - unfold andThen. rewrite !(destroy_pooled si mm this ids Hid Hmm). reflexivity.
  - unfold andThen. rewrite !destroy_without_setup. reflexivity.
Qed.

Lemma destroyInRenderer_twice_witness :
  andThen (destroyInRenderer (Some pooled) (mkTextureGLES (rgba4x4 None) 7) [])
          (destroyInRenderer (Some pooled))
  = Returned tt (mkTextureGLES (rgba4x4 None) 7) [] [removeTexID 7; removeTexID 7].
Proof.
  refine (proj1 (proj2 (destroyInRenderer_twice pooled TheMemManager
                          (mkTextureGLES (rgba4x4 None) 7) [] _ _))).
  - vm_compute. discriminate.
  - reflexivity.
Defined.

(** C1 fails as stated: on a created texture (handle 7, pooled set-up) the
    first call hands the handle to [removeTexID] and leaves the resource as
    it was, handle included; the second call, on that same state, is no
    no-op: it releases the handle once more. *)
Lemma destroyInRenderer_twice_counterexample :
  glId (mkTextureGLES (rgba4x4 None) 7) <> 0 /\
  destroyInRenderer (Some pooled) (mkTextureGLES (rgba4x4 None) 7) []
  = Returned tt (mkTextureGLES (rgba4x4 None) 7) [] [removeTexID 7] /\
  existsb isRelease [removeTexID 7] = true /\
  andThen (destroyInRenderer (Some pooled) (mkTextureGLES (rgba4x4 None) 7) [])
          (destroyInRenderer (Some pooled))
  = Returned tt (mkTextureGLES (rgba4x4 None) 7) [] [removeTexID 7; removeTexID 7].
Proof.
  split; [vm_compute; discriminate |]. repeat split; reflexivity.
Qed.

(** ** Creating twice *)

(** C2, at the failing input: a 4 by 4 texture with 16 bytes of pixel data is
    created (the call returns true, the handle is 7, the pixel data has been
    released); a further [createInRenderer] on that created texture makes
    no call into the renderer and returns false. *)
Theorem createInRenderer_again_after_upload :
  exists log,
    createInRenderer keepData None (mkTextureGLES (rgba4x4 (Some (zeros 16))) 0) [7]
    = Returned true (mkTextureGLES (rgba4x4 None) 7) [] log /\
    glId (mkTextureGLES (rgba4x4 None) 7) <> 0 /\
    createInRenderer keepData None (mkTextureGLES (rgba4x4 None) 7) []
    = Returned false (mkTextureGLES (rgba4x4 None) 7) [] [] /\
    andThen (createInRenderer keepData None
                              (mkTextureGLES (rgba4x4 (Some (zeros 16))) 0) [7])
            (createInRenderer keepData None)
    = Returned false (mkTextureGLES (rgba4x4 None) 7) [] log.
Proof.
  eexists. split; [reflexivity |]. split; [vm_compute; discriminate |].
  split; reflexivity.
Qed.

(** Whatever the first call did, once a call has returned true from the
    pending state on a texture that is not marked empty, the next call
    returns false. *)
Lemma create_again_fails (processData : Texture -> RawDataRef)
      (si si' : option RenderSetupInfoGLES) (this t1 : TextureGLES)
      (ids ids1 : list GLuint) (log1 : list GLCall) :
  glId this = 0 -> isEmptyTexture this = false ->
  createInRenderer processData si this ids = Returned true t1 ids1 log1 ->
  createInRenderer processData si' t1 ids1 = Returned false t1 ids1 [].
Proof.
  intros Hid He Hfirst.
  assert (Ht1 : texData t1 = None /\ isEmptyTexture t1 = false).
  { revert Hfirst. unfold createInRenderer, finish, bail.
    rewrite Hid, He. cbn [Z.eqb negb andb].
    repeat match goal with
           | |- context [if ?c then _ else _] => destruct c
           | |- context [match ?c with _ => _ end] => destruct c
           end;
      intros [= <- <- <-] || discriminate; cbn; auto. }
  destruct Ht1 as [Hd He1]. apply create_no_data; assumption.
Qed.

(** ** Compressed textures *)

(** C4, as the code has it: for a pending texture marked PVRTC that has
    something to create from and whose data converts, [createInRenderer]
    logs an error, uploads nothing, releases nothing, and then returns true
    with the allocated handle set and the pixel data dropped.  The same
    holds for a pending PKM texture whose header [ResolvePKM] rejects. *)
Theorem createInRenderer_compressed_errors :
  (forall (processData : Texture -> RawDataRef) (si : option RenderSetupInfoGLES)
          (this : TextureGLES) (ids : list GLuint),
      creatable this -> glId this = 0 -> converts processData this ->
      isPVRTC this = true ->
      exists t' log,
        createInRenderer processData si this ids = Returned true t' (tl ids) log /\
        glId t' = nextTexID ids /\ texData t' = None /\
        existsb isErrorLog log = true /\
        existsb isUpload log = false /\
        existsb isRelease log = false) /\
  (forall (processData : Texture -> RawDataRef) (si : option RenderSetupInfoGLES)
          (this : TextureGLES) (ids : list GLuint) (d : RawData),
      glId this = 0 -> converts processData this ->
      isPVRTC this = false -> isPKM this = true ->
      texData this = Some d -> (ResolvePKM d uninitialised).1 = None ->
      exists t' log,
        createInRenderer processData si this ids = Returned true t' (tl ids) log /\
        glId t' = nextTexID ids /\ texData t' = None /\
        existsb isErrorLog log = true /\
        existsb isUpload log = false /\
        existsb isRelease log = false).
Proof.
  split.
  - intros processData si this ids Hc Hid Hv Hp.
    rewrite create_PVRTC by assumption.
    do 2 eexists. split; [reflexivity |]. read_log. repeat split; reflexivity.
  - intros processData si this ids d Hid Hv Hp Hk Hd Hr.
    rewrite (create_PKM_unresolved processData si this ids d) by assumption.
    do 2 eexists. split; [reflexivity |]. read_log. repeat split; reflexivity.
Qed.

Lemma createInRenderer_compressed_errors_witness :
  (exists t' log,
      createInRenderer keepData None (mkTextureGLES (pvrtc8x8 (Some (zeros 32))) 0) [7]
      = Returned true t' [] log /\
      glId t' = 7 /\ texData t' = None /\
      existsb isErrorLog log = true /\
      existsb isUpload log = false /\
      existsb isRelease log = false) /\
  (exists t' log,
      createInRenderer keepData (Some pooled)
                       (mkTextureGLES (pkm64x64 (Some (pkmFile x02 (zeros 2048)))) 0) [7]
      = Returned true t' [] log /\
      glId t' = 7 /\ texData t' = None /\
      existsb isErrorLog log = true /\
      existsb isUpload log = false /\
      existsb isRelease log = false).
Proof.
  split.
  - refine (proj1 createInRenderer_compressed_errors keepData None
                  (mkTextureGLES (pvrtc8x8 (Some (zeros 32))) 0) [7] _ _ _ _).
    + left. discriminate.
    + reflexivity.
    + intros H. exact H.
    + reflexivity.
  - refine (proj2 createInRenderer_compressed_errors keepData (Some pooled)
                  (mkTextureGLES (pkm64x64 (Some (pkmFile x02 (zeros 2048)))) 0) [7]
                  (pkmFile x02 (zeros 2048)) _ _ _ _ _ _).
    + reflexivity.
    + intros H. exact H.
    + reflexivity.
    + reflexivity.
    + reflexivity.
    + reflexivity.
Defined.

(** C4 fails as stated: a pending texture marked PVRTC, 8 by 8 over 32 bytes,
    logs the error, and the create call returns true; so does a PKM texture
    whose header has the unsupported sub-type 2. *)
Lemma createInRenderer_compressed_counterexample :
  isPVRTC (pvrtc8x8 (Some (zeros 32))) = true /\
  createInRenderer keepData None (mkTextureGLES (pvrtc8x8 (Some (zeros 32))) 0) [7]
  = Returned true (mkTextureGLES (pvrtc8x8 None) 7) []
             (setupCalls None (pvrtc8x8 (Some (zeros 32))) 7
                ++ [wkLogLevel Error "PVRTC not supported"]) /\
  (ResolvePKM (pkmFile x02 (zeros 2048)) uninitialised).1 = None /\
  createInRenderer keepData None
                   (mkTextureGLES (pkm64x64 (Some (pkmFile x02 (zeros 2048)))) 0) [7]
  = Returned true (mkTextureGLES (pkm64x64 None) 7) []
             (setupCalls None (pkm64x64 (Some (pkmFile x02 (zeros 2048)))) 7
                ++ [wkLogLevel Error "Failed to resolve PKM"]).
Proof. repeat split; reflexivity. Qed.

(** ** Single-channel sources *)

Lemma create_no_upload_without_format (processData : Texture -> RawDataRef)
      (si : option RenderSetupInfoGLES) (this : TextureGLES) (ids : list GLuint) :
  isPKM this = false -> supportedb this = false ->
  exists r t' ids' log,
    createInRenderer processData si this ids = Returned r t' ids' log /\
    existsb isUpload log = false.
Proof.
  intros Hk Hs.
  destruct (decide (creatable this)) as [Hc | Hn].
  2: { exists false, this, ids, [].
       split; [| reflexivity]. apply create_no_data.
       - destruct (texData this) eqn:E; [| reflexivity].
         exfalso. apply Hn. left. rewrite E. discriminate.
       - destruct (isEmptyTexture this) eqn:E; [| reflexivity].
         exfalso. apply Hn. right. exact E. }
  destruct (decide (glId this = 0)) as [Hid | Hid].
  2: { exists true, this, ids, []. split; [| reflexivity]. apply create_created; assumption. }
  destruct (decide (texData this <> None /\ processData this = None)) as [[Hd Hp] | Hv].
  { rewrite create_conversion_failed by assumption.
    do 4 eexists. split; [reflexivity |]. read_log. reflexivity. }
  assert (Hconv : converts processData this).
  { intros Hd Hp. apply Hv. split; assumption. }
  destruct (isPVRTC this) eqn:Hp.
  - rewrite create_PVRTC by assumption.
    do 4 eexists. split; [reflexivity |]. read_log. reflexivity.
  - rewrite create_unknown_format by assumption.
    do 4 eexists. split; [reflexivity |]. read_log. reflexivity.
Qed.

(** C5, as the code has it: for the single-channel format the resolver
    depends on the channel source.  Alpha and red give formats
    ([GL_ALPHA]/[GL_ALPHA] and [GL_R8]/[GL_RED]); green, blue and packed RGB
    give the sentinel [GL_NONE] for the internal and for the transfer
    format.  For those three [createInRenderer] uploads nothing, but it does
    not fail: on the path that consults the resolver (a pending texture
    that has something to create from, whose data converts, neither PVRTC
    nor PKM) it logs the unknown type as an error in place of the upload and
    then returns true, with the allocated handle set and the pixel data
    dropped. *)
Theorem single_channel_sources :
  (mapInternalFormat TexTypeSingleChannel WKSingleAlpha = GL_ALPHA /\
   mapGLFormat TexTypeSingleChannel WKSingleAlpha = GL_ALPHA /\
   mapInternalFormat TexTypeSingleChannel WKSingleRed = GL_R8 /\
   mapGLFormat TexTypeSingleChannel WKSingleRed = GL_RED /\
   GL_ALPHA <> GL_NONE /\ GL_R8 <> GL_NONE /\ GL_RED <> GL_NONE) /\
  (forall bs : WKSingleByteSource,
      bs = WKSingleGreen \/ bs = WKSingleBlue \/ bs = WKSingleRGB ->
      mapInternalFormat TexTypeSingleChannel bs = GL_NONE /\
      mapGLFormat TexTypeSingleChannel bs = GL_NONE) /\
  (forall (processData : Texture -> RawDataRef) (si : option RenderSetupInfoGLES)
          (this : TextureGLES) (ids : list GLuint),
      format this = TexTypeSingleChannel ->
      byteSource this = WKSingleGreen \/ byteSource this = WKSingleBlue
      \/ byteSource this = WKSingleRGB ->
      isPKM this = false ->
      (exists r t' ids' log,
          createInRenderer processData si this ids = Returned r t' ids' log /\
          existsb isUpload log = false) /\
      (creatable this -> glId this = 0 -> converts processData this ->
       isPVRTC this = false ->
       exists t' log,
         createInRenderer processData si this ids = Returned true t' (tl ids) log /\
         glId t' = nextTexID ids /\ texData t' = None /\
         existsb isErrorLog log = true /\
         existsb isUpload log = false /\
         existsb isRelease log = false)).
Proof.
  split; [repeat split; discriminate |].
  split.
  - intros bs [-> | [-> | ->]]; split; reflexivity.
  - intros processData si this ids Hf Hbs Hk.
    assert (Hs : supportedb this = false).
    { apply supportedb_false. left. rewrite Hf.
      destruct Hbs as [-> | [-> | ->]]; reflexivity. }
    split.
    + apply create_no_upload_without_format; assumption.
    + intros Hc Hid Hv Hp. rewrite create_unknown_format by assumption.
      unfold finish. do 2 eexists. split; [reflexivity |].
      split; [reflexivity |]. split; [reflexivity |].
      read_log. repeat split; reflexivity.
Qed.

Lemma single_channel_sources_witness :
  (mapInternalFormat TexTypeSingleChannel WKSingleGreen = GL_NONE /\
   mapGLFormat TexTypeSingleChannel WKSingleGreen = GL_NONE) /\
  (exists t' log,
      createInRenderer keepData None (mkTextureGLES (green4x4 (Some (zeros 16))) 0) [7]
      = Returned true t' [] log /\
      glId t' = 7 /\ texData t' = None /\
      existsb isErrorLog log = true /\
      existsb isUpload log = false /\
      existsb isRelease log = false).
Proof.
  split.
  - apply (proj1 (proj2 single_channel_sources) WKSingleGreen). left. reflexivity.
  - refine (proj2 (proj2 (proj2 single_channel_sources) keepData None
                         (mkTextureGLES (green4x4 (Some (zeros 16))) 0) [7] _ _ _)
                  _ _ _ _).
    + reflexivity.
    + left. reflexivity.
    + reflexivity.
    + left. discriminate.
    + reflexivity.
    + intros H. exact H.
    + reflexivity.
Defined.

(** C5 fails as stated: a pending 4 by 4 single-channel texture fed from the
    green channel, with 16 bytes of pixel data, resolves to the sentinel
    [GL_NONE], and [createInRenderer] does not fail on it: it logs the
    unknown type and returns true, the handle set to the name 7 and the
    pixel data dropped, without an upload. *)
Lemma single_channel_sources_counterexample :
  mapInternalFormat TexTypeSingleChannel WKSingleGreen = GL_NONE /\
  mapGLFormat TexTypeSingleChannel WKSingleGreen = GL_NONE /\
  createInRenderer keepData None (mkTextureGLES (green4x4 (Some (zeros 16))) 0) [7]
  = Returned true (mkTextureGLES (green4x4 None) 7) []
             (setupCalls None (green4x4 (Some (zeros 16))) 7
                ++ [wkLogLevel Error "Unknown texture type %d for GLES"]).
Proof. repeat split; reflexivity. Qed.

(** ** Placeholder textures *)

Lemma create_empty (processData : Texture -> RawDataRef)
      (si : option RenderSetupInfoGLES) (this : TextureGLES) (ids : list GLuint) :
  texData this = None -> isEmptyTexture this = true -> glId this = 0 ->
  isPKM this = false -> processData this = None ->
  exists upload, createInRenderer processData si this ids = finish si this ids upload.
Proof.
  intros Hd He Hid Hk Hp.
  assert (Hc : creatable this) by (right; exact He).
  assert (Hv : converts processData this) by (intros Hn; contradiction).
  destruct (isPVRTC this) eqn:Hpv.
  { eexists. apply create_PVRTC; assumption. }
  destruct (supportedb this) eqn:Hs.
  - eexists. unfold createInRenderer.
    rewrite (creatable_guard _ Hc), Hid. cbn [Z.eqb negb].
    rewrite (converts_guard _ _ Hv), Hpv, Hk.
    unfold supportedb in Hs. rewrite Hs, Hp. reflexivity.
  - eexists. apply create_unknown_format; assumption.
Qed.

(** C8: a texture resource marked empty, without pixel data and freshly
    constructed (no handle yet, not flagged PKM; [processData] has nothing
    to hand back) is created with success, and its handle is then the name
    the allocator handed out, which is not zero. *)
Theorem createInRenderer_empty (processData : Texture -> RawDataRef)
        (si : option RenderSetupInfoGLES) (this : TextureGLES) (ids : list GLuint) :
  isEmptyTexture this = true -> texData this = None ->
  glId this = 0 -> isPKM this = false -> processData this = None ->
  nextTexID ids <> 0 ->
  exists t' ids' log,
    createInRenderer processData si this ids = Returned true t' ids' log /\
    glId t' = nextTexID ids /\
    glId t' <> 0.
Proof.
  intros He Hd Hid Hk Hp Hnext.
  destruct (create_empty processData si this ids Hd He Hid Hk Hp) as [upload ->].
  unfold finish. do 3 eexists. split; [reflexivity |]. split; [reflexivity | exact Hnext].
Qed.

Lemma createInRenderer_empty_witness :
  exists t' ids' log,
    createInRenderer keepData (Some pooled) (mkTextureGLES empty4x4 0) [7; 8]
    = Returned true t' ids' log /\
    glId t' = 7 /\
    glId t' <> 0.
Proof.
  refine (createInRenderer_empty keepData (Some pooled) (mkTextureGLES empty4x4 0) [7; 8]
                                 _ _ _ _ _ _).
  - reflexivity.
  - reflexivity.
  - reflexivity.
  - reflexivity.
  - reflexivity.
  - vm_compute. discriminate.
Defined.

(** ** After a short pixel buffer *)

(** C10: when [createInRenderer] fails on a pixel buffer shorter than
    [bytesPerRow(width) * height], the handle the allocator handed out is
    already set and the pixel data is still held; a further
    [createInRenderer] on that resource returns true at once, without a
    single call into the renderer. *)
Theorem createInRenderer_short_then_again (processData : Texture -> RawDataRef)
        (si si' : option RenderSetupInfoGLES) (this : TextureGLES)
        (ids : list GLuint) (d cd : RawData) :
  glId this = 0 -> isPVRTC this = false -> isPKM this = false -> supported this ->
  texData this = Some d -> processData this = Some cd ->
  0 <= getBytesPerRow (format this) (width this) * height this <= CInt.INT_MAX ->
  getLen cd < getBytesPerRow (format this) (width this) * height this ->
  nextTexID ids <> 0 ->
  exists t1 ids1 log1,
    createInRenderer processData si this ids = Returned false t1 ids1 log1 /\
    glId t1 = nextTexID ids /\ glId t1 <> 0 /\
    texData t1 = Some d /\
    createInRenderer processData si' t1 ids1 = Returned true t1 ids1 [] /\
    andThen (createInRenderer processData si this ids) (createInRenderer processData si')
    = Returned true t1 ids1 log1.
Proof.
  intros Hid Hp Hk Hs Hd Hcd Hrange Hlt Hnext.
  assert (Hc : creatable this) by (left; rewrite Hd; discriminate).
  pose proof (create_short processData si this ids cd Hc Hid Hp Hk Hs Hcd Hrange Hlt)
    as Hfirst.
  assert (Hsecond :
            createInRenderer processData si' (mkTextureGLES this (nextTexID ids)) (tl ids)
            = Returned true (mkTextureGLES this (nextTexID ids)) (tl ids) []).
  { apply create_created; [left; cbn; rewrite Hd; discriminate | exact Hnext]. }
  exists (mkTextureGLES this (nextTexID ids)), (tl ids),
    (setupCalls si this (nextTexID ids) ++ [sizeMismatch]).
  split; [exact Hfirst |]. split; [reflexivity |]. split; [exact Hnext |].
  split; [exact Hd |]. split; [exact Hsecond |].
  unfold andThen. rewrite Hfirst. unfold bail. rewrite Hsecond.
  rewrite app_nil_r. reflexivity.
Qed.

Lemma createInRenderer_short_then_again_witness :
  exists t1 ids1 log1,
    createInRenderer keepData None (mkTextureGLES (rgba4x4 (Some (zeros 15))) 0) [7]
    = Returned false t1 ids1 log1 /\
    glId t1 = 7 /\ glId t1 <> 0 /\
    texData t1 = Some (zeros 15) /\
    createInRenderer keepData None t1 ids1 = Returned true t1 ids1 [] /\
    andThen (createInRenderer keepData None (mkTextureGLES (rgba4x4 (Some (zeros 15))) 0) [7])
            (createInRenderer keepData None)
    = Returned true t1 ids1 log1.
Proof.
  refine (createInRenderer_short_then_again keepData None None
            (mkTextureGLES (rgba4x4 (Some (zeros 15))) 0) [7] (zeros 15) (zeros 15)
            _ _ _ _ _ _ _ _ _).
  - reflexivity.
  - reflexivity.
  - reflexivity.
  - apply unsigned_byte_supported. reflexivity.
  - reflexivity.
  - reflexivity.
  - vm_compute. split; discriminate.
  - reflexivity.
  - vm_compute. discriminate.
Defined.

(** ** Removing geometry *)

Section Removal.

Implicit Types (table : gmap Z TableEntry) (changes : list ChangeRequest).
Implicit Types (handle other : SimpleIdentity) (now : TimeInterval).

Lemma removeOne_unknown now table changes handle :
  table !! handle = None ->
  removeOne now (table, changes) handle = (table, changes).
Proof. intros H. unfold removeOne. cbn [fst]. rewrite H. reflexivity. Qed.

(** Clearing one handle leaves the entries of the others alone. *)
Lemma removeOne_other now table changes handle other :
  other <> handle ->
  (removeOne now (table, changes) other).1 !! handle = table !! handle.
Proof.
  intros Hne. unfold removeOne. cbn [fst snd].
  destruct (table !! other) as [entry |] eqn:E; [| reflexivity].
  unfold clearContents.
  destruct (Qeq_bool _ _ || _); cbn [fst].
  - apply lookup_delete_ne, Hne.
  - apply lookup_insert_ne, Hne.
Qed.

Lemma removeOne_goesNow now table changes handle :
  goesNow table handle ->
  (removeOne now (table, changes) handle).1 !! handle = None.
Proof.
  unfold goesNow, removeOne. cbn [fst snd].
  destruct (table !! handle) as [entry |] eqn:E; [| intros _; exact E].
  intros Hnow. unfold clearContents. rewrite Hnow. cbn [fst].
  apply lookup_delete_eq.
Qed.

Lemma removeOne_keeps_unknown now table changes handle other :
  table !! handle = None ->
  (removeOne now (table, changes) other).1 !! handle = None.
Proof.
  intros H. destruct (decide (other = handle)) as [-> | Hne].
  - rewrite removeOne_unknown by exact H. exact H.
  - rewrite removeOne_other by exact Hne. exact H.
Qed.

Lemma removeGeometryList_cons table changes now handle handles :
  removeGeometryList table (handle :: handles) changes now
  = removeGeometryList (removeOne now (table, changes) handle).1 handles
                       (removeOne now (table, changes) handle).2 now.
Proof.
  unfold removeGeometryList. cbn [foldl].
  destruct (removeOne now (table, changes) handle). reflexivity.
Qed.

Lemma removeGeometryList_keeps_unknown handles : forall table changes now handle,
  table !! handle = None ->
  (removeGeometryList table handles changes now).1 !! handle = None.
Proof.
  induction handles as [| other handles IH]; intros table changes now handle H.
  - exact H.
  - rewrite removeGeometryList_cons.
    apply IH, removeOne_keeps_unknown, H.
Qed.

(** A handle in the list that goes at once is gone after the call. *)
Lemma removeGeometryList_removes handles : forall table changes now handle,
  handle ∈ handles -> goesNow table handle ->
  (removeGeometryList table handles changes now).1 !! handle = None.
Proof.
  induction handles as [| other handles IH]; intros table changes now handle Hin Hnow.
  - inversion Hin.
  - rewrite removeGeometryList_cons.
    destruct (decide (other = handle)) as [-> | Hne].
    + apply removeGeometryList_keeps_unknown, removeOne_goesNow, Hnow.
    + apply IH.
      * apply elem_of_cons in Hin as [-> | Hin]; [contradiction | exact Hin].
      * unfold goesNow. rewrite removeOne_other by exact Hne. exact Hnow.
Qed.

(** An unknown handle in the list is skipped: the call does what it does
    for the list without it. *)
Lemma removeGeometryList_skips handles : forall table changes now handle,
  table !! handle = None ->
  removeGeometryList table handles changes now
  = removeGeometryList table (filter (fun h => h <> handle) handles) changes now.
Proof.
  induction handles as [| other handles IH]; intros table changes now handle H.
  - reflexivity.
  - destruct (decide (other = handle)) as [-> | Hne].
    + rewrite filter_cons_False by (intros Hn; exact (Hn eq_refl)).
      rewrite removeGeometryList_cons, removeOne_unknown by exact H.
      apply IH, H.
    + rewrite filter_cons_True by exact Hne.
      rewrite !removeGeometryList_cons.
      apply IH, removeOne_keeps_unknown, H.
Qed.

End Removal.

(** *** Set order *)

Lemma elem_of_inOrder (ids : gset Z) (x : Z) : x ∈ inOrder ids <-> x ∈ ids.
Proof.
  unfold inOrder. rewrite merge_sort_Permutation. apply elem_of_elements.
Qed.

Lemma NoDup_inOrder (ids : gset Z) : NoDup (inOrder ids).
Proof.
  unfold inOrder. rewrite merge_sort_Permutation. apply NoDup_elements.
Qed.

Lemma inOrder_singleton (x : Z) : inOrder {[x]} = [x].
Proof. unfold inOrder. rewrite elements_singleton. reflexivity. Qed.

Lemma StronglySorted_filter (P : Z -> Prop) `{forall x, Decision (P x)} (l : list Z) :
  StronglySorted Z.le l -> StronglySorted Z.le (filter P l).
Proof.
  induction 1 as [| x l Hl IH Hx].
  - constructor.
  - rewrite filter_cons. destruct (decide (P x)); [| exact IH].
    constructor; [exact IH |].
    apply Forall_forall. intros y Hy. apply list_elem_of_filter in Hy as [_ Hy].
    rewrite Forall_forall in Hx. apply Hx, Hy.
Qed.

Lemma inOrder_difference (ids : gset Z) (x : Z) :
  inOrder (ids ∖ {[x]}) = filter (fun h => h <> x) (inOrder ids).
Proof.
  apply (Sorted_unique Z.le).
  - apply Sorted_merge_sort. apply _.
  - apply StronglySorted_Sorted, StronglySorted_filter.
    apply StronglySorted_merge_sort; apply _.
  - apply NoDup_Permutation.
    + apply NoDup_inOrder.
    + apply NoDup_filter, NoDup_inOrder.
    + intros y.
      rewrite list_elem_of_filter, !elem_of_inOrder, elem_of_difference, elem_of_singleton.
      tauto.
Qed.

(** C9: let a first [removeGeometry] run over a handle set that contains
    [handle].  If clearing [handle] removes it at once (its entry asks for
    no fade-out, or is already fading, or there is no entry), the handle is
    gone from the table afterwards.  And once the first call has removed
    it, a second [removeGeometry] right after it is a no-op for [handle]:
    over the set made of [handle] alone it gives back the table and the
    change set untouched, and over any set it does what it does for the set
    without [handle].  The call has no way to report an error. *)
Theorem removeGeometry_twice (sceneReps : gmap Z TableEntry) (billIDs : gset Z)
        (handle : SimpleIdentity) (changes : list ChangeRequest)
        (now later : TimeInterval) :
  handle ∈ billIDs ->
  let first := removeGeometry sceneReps billIDs changes now in
  (goesNow sceneReps handle -> first.1 !! handle = None) /\
  (first.1 !! handle = None ->
   removeGeometry first.1 {[handle]} first.2 later = first /\
   forall again : gset Z,
     removeGeometry first.1 again first.2 later
     = removeGeometry first.1 (again ∖ {[handle]}) first.2 later).
Proof.
  intros Hin first. split.
  - intros Hnow. apply removeGeometryList_removes; [| exact Hnow].
    apply elem_of_inOrder, Hin.
  - intros Hgone. split.
    + unfold removeGeometry. rewrite inOrder_singleton.
      rewrite removeGeometryList_cons, removeOne_unknown by exact Hgone.
      destruct first; reflexivity.
    + intros again. unfold removeGeometry.
      rewrite inOrder_difference.
      apply removeGeometryList_skips, Hgone.
Qed.

Lemma removeGeometry_twice_witness :
  (removeGeometry table5 {[5; 6]} [] 0%Q).2
  = [RemoveBatch 11; RemoveBatch 12; RemoveSelectable 21] /\
  (removeGeometry table5 {[5; 6]} [] 0%Q).1 !! 5 = None /\
  removeGeometry (removeGeometry table5 {[5; 6]} [] 0%Q).1 {[5]}
                 (removeGeometry table5 {[5; 6]} [] 0%Q).2 0%Q
  = removeGeometry table5 {[5; 6]} [] 0%Q.
Proof.
  assert (Hin : 5 ∈ ({[5; 6]} : gset Z)) by (apply elem_of_union_l, elem_of_singleton; reflexivity).
  assert (Hnow : goesNow table5 5) by reflexivity.
  pose proof (removeGeometry_twice table5 {[5; 6]} 5 [] 0%Q 0%Q Hin) as [Hgone Hnoop].
  split; [vm_compute; reflexivity |].
  split; [exact (Hgone Hnow) |].
  exact (proj1 (Hnoop (Hgone Hnow))).
Defined.

(** * Further properties of the texture code *)

(** ** The format resolver as a whole *)

(** The three resolver functions agree on what they do not know: the element
    type is [GL_NONE] for the unknown format only and never looks at the
    channel source; the internal and the transfer format are [GL_NONE]
    together, for the unknown format and for a single-channel format fed
    from green, blue or packed RGB; and that is where the three-way test of
    [createInRenderer] fails. *)
Theorem resolver_sentinels (tt : TextureType) (bs : WKSingleByteSource) :
  (mapGLType tt bs = GL_NONE <-> tt = TexTypeOther) /\
  (forall bs' : WKSingleByteSource, mapGLType tt bs' = mapGLType tt bs) /\
  (mapInternalFormat tt bs = GL_NONE <-> mapGLFormat tt bs = GL_NONE) /\
  (mapInternalFormat tt bs = GL_NONE <->
   tt = TexTypeOther \/
   (tt = TexTypeSingleChannel /\ bs <> WKSingleAlpha /\ bs <> WKSingleRed)) /\
  (forall x : Texture,
      format x = tt -> byteSource x = bs ->
      (supported x <-> mapInternalFormat tt bs <> GL_NONE) /\
      (supportedb x = true <-> supported x)).
Proof.
  assert (Htype : mapGLType tt bs = GL_NONE <-> tt = TexTypeOther).
  { destruct tt; cbn; split; intros H; first [reflexivity | discriminate]. }
  assert (Hboth : mapInternalFormat tt bs = GL_NONE <-> mapGLFormat tt bs = GL_NONE).
  { destruct tt, bs; cbn; split; intros H; first [reflexivity | discriminate]. }
  assert (Hwhere : mapInternalFormat tt bs = GL_NONE <->
                   tt = TexTypeOther \/
                   (tt = TexTypeSingleChannel /\ bs <> WKSingleAlpha /\ bs <> WKSingleRed)).
  { destruct tt, bs; cbn; split; intros H;
      try reflexivity; try discriminate;
      try (right; repeat split; discriminate);
      try (left; reflexivity);
      destruct H as [H | (H1 & H2 & H3)]; congruence. }
  split; [exact Htype |]. split; [intros bs'; destruct tt; reflexivity |].
  split; [exact Hboth |]. split; [exact Hwhere |].
  intros x Hf Hb.
  assert (Hsup : supported x <-> mapInternalFormat tt bs <> GL_NONE).
  { unfold supported. rewrite Hf, Hb. split; [tauto |].
    intros Hn. split; [exact Hn |]. split.
    - rewrite <- Hboth. exact Hn.
    - rewrite Htype. intros ->. apply Hn. destruct bs; reflexivity. }
  split; [exact Hsup |].
  split.
  - unfold supportedb, supported. rewrite !andb_true_iff, !negb_true_iff, !Z.eqb_neq. tauto.
  - apply supportedb_true.
Qed.

(** For every format the bytes of a row are the width times 1, 2, 4, 8 or 16
    as long as that fits an [int], and 0 for the unknown format alone. *)
Theorem getBytesPerRow_linear (tt : TextureType) :
  exists k : Z,
    (k = 0 \/ k = 1 \/ k = 2 \/ k = 4 \/ k = 8 \/ k = 16) /\
    (k = 0 <-> tt = TexTypeOther) /\
    (forall w : Z, 0 <= w -> k * w <= CInt.INT_MAX -> getBytesPerRow tt w = k * w) /\
    (forall w : Z, 0 < w -> 16 * w <= CInt.INT_MAX -> tt <> TexTypeOther ->
                   w <= getBytesPerRow tt w <= 16 * w).
Proof.
  assert (Hmul : forall k w, 0 <= k -> 0 <= w -> k * w <= CInt.INT_MAX ->
                             CInt.mul w k = k * w).
  { intros k w Hk Hw Hfit. rewrite mul_exact; [lia | nia]. }
  destruct tt.
  all: match goal with
       | |- context [getBytesPerRow ?f] =>
           let r := eval cbn in (getBytesPerRow f 1) in
           let k := eval vm_compute in r in
           exists k
       end.
  all: repeat split; try discriminate; try tauto; try lia.
  all: try (intros w Hw Hfit; cbn [getBytesPerRow]; first [apply Hmul; lia | reflexivity]).
  all: try contradiction.
  all: cbn [getBytesPerRow]; rewrite Hmul by (unfold CInt.INT_MAX in *; lia); lia.
Qed.

(** ** The PKM parser: what it reads and what it writes *)

(** The [switch] either leaves [size] alone and [glType] at -1, or sets both
    without looking at what [size] was. *)
Lemma resolveGLType_rows (type w h size0 : Z) :
  resolveGLType type w h size0 = (size0, -1) \/
  exists sz ty : Z,
    (sz = CInt.mul w h \/ sz = CInt.div (CInt.mul w h) 2) /\
    GL_COMPRESSED_R11_EAC <= ty <= GL_COMPRESSED_RGBA8_ETC2_EAC /\
    forall s : Z, resolveGLType type w h s = (sz, ty).
Proof.
  destruct type as [|[[[[]|[]|]|[[]|[]|]|]|[[[]|[]|]|[[]|[]|]|]|]|];
    try (left; reflexivity);
    right; eexists _, _; (split; [| split; [| intros s; reflexivity]]);
    first [left; reflexivity | right; reflexivity | vm_compute; split; discriminate].
Qed.

Lemma header_at_agree (d d' : RawData) (i : nat) :
  d !! i = d' !! i -> header_at d i = header_at d' i.
Proof.
  intros H. unfold header_at. rewrite !nth_lookup. f_equal. f_equal. exact H.
Qed.

(** Of a file with a full header [ResolvePKM] reads the magic and bytes 7 to
    11, nothing else: two files that agree there resolve alike, whatever
    their version bytes, their bytes 12 to 15 and their payloads (a payload
    too short for the size the header announces is not noticed). *)
Theorem ResolvePKM_reads_header_fields (d d' : RawData) (refs : PKMRefs) :
  16 <= getLen d -> 16 <= getLen d' ->
  take 4 d = take 4 d' ->
  (forall i : nat, (7 <= i <= 11)%nat -> d !! i = d' !! i) ->
  (ResolvePKM d refs).2 = (ResolvePKM d' refs).2 /\
  ((ResolvePKM d refs).1 = None <-> (ResolvePKM d' refs).1 = None).
Proof.
  intros Hlen Hlen' Hmagic Hbytes.
  destruct (List.list_eq_dec Byte.byte_eq_dec (take 4 d) PKM_magic) as [Hok | Hbad].
  - assert (Hok' : take 4 d' = PKM_magic) by (rewrite <- Hmagic; exact Hok).
    rewrite (ResolvePKM_valid d refs Hlen Hok), (ResolvePKM_valid d' refs Hlen' Hok').
    rewrite <- !(header_at_agree d d') by (apply Hbytes; lia).
    cbv zeta. destruct (_ =? -1); cbn [fst snd]; split; try reflexivity;
      split; intros; first [reflexivity | discriminate].
  - assert (Hbad' : take 4 d' <> PKM_magic) by (rewrite <- Hmagic; exact Hbad).
    rewrite (ResolvePKM_bad_magic d refs Hbad), (ResolvePKM_bad_magic d' refs Hbad').
    split; [reflexivity | tauto].
Qed.

Lemma ResolvePKM_reads_header_fields_witness :
  (ResolvePKM (pkmFile x01 (zeros 2048)) uninitialised).2
  = (ResolvePKM (pkmFile x01 []) uninitialised).2 /\
  ((ResolvePKM (pkmFile x01 (zeros 2048)) uninitialised).1 = None <->
   (ResolvePKM (pkmFile x01 []) uninitialised).1 = None).
Proof.
  refine (ResolvePKM_reads_header_fields (pkmFile x01 (zeros 2048)) (pkmFile x01 [])
                                         uninitialised _ _ _ _).
  - vm_compute. discriminate.
  - vm_compute. discriminate.
  - reflexivity.
  - intros i Hi.
    do 12 (destruct i as [| i]; [first [reflexivity | lia] |]). lia.
Defined.

(** The caller hands [ResolvePKM] uninitialised locals.  Whether the parse
    succeeds never depends on them; when it succeeds all four have been
    written, so the result does not depend on them either; when it fails,
    [pkmType] and [size] are as they were. *)
Theorem ResolvePKM_out_parameters (d : RawData) (refs refs' : PKMRefs) :
  (ResolvePKM d refs).1 = (ResolvePKM d refs').1 /\
  ((ResolvePKM d refs).1 <> None -> ResolvePKM d refs = ResolvePKM d refs') /\
  ((ResolvePKM d refs).1 = None ->
   pkmType (ResolvePKM d refs).2 = pkmType refs /\
   size (ResolvePKM d refs).2 = size refs).
Proof.
  destruct (Z.lt_ge_cases (getLen d) 16) as [Hshort | Hlen].
  { rewrite !ResolvePKM_short by exact Hshort. cbn. tauto. }
  destruct (List.list_eq_dec Byte.byte_eq_dec (take 4 d) PKM_magic) as [Hok | Hbad].
  2: { rewrite !ResolvePKM_bad_magic by exact Hbad. cbn. tauto. }
  rewrite !(ResolvePKM_valid d _ Hlen Hok). cbv zeta.
  set (w := 256 * header_at d 8 + header_at d 9).
  set (h := 256 * header_at d 10 + header_at d 11).
  destruct (resolveGLType_rows (header_at d 7) w h (size refs))
    as [Hfail | (sz & ty & _ & Hty & Hrow)].
  - assert (Hfail' : resolveGLType (header_at d 7) w h (size refs') = (size refs', -1)).
    { destruct (resolveGLType_rows (header_at d 7) w h (size refs'))
        as [E | (sz & ty & _ & Hty & Hrow)]; [exact E |].
      rewrite Hrow in Hfail. injection Hfail as _ E.
      unfold GL_COMPRESSED_R11_EAC in Hty. lia. }
    rewrite Hfail, Hfail'. cbn. split; [reflexivity |]. split; [congruence | tauto].
  - rewrite !Hrow. cbn [fst snd].
    destruct (Z.eqb_spec ty (-1)) as [E | _].
    { unfold GL_COMPRESSED_R11_EAC in Hty. lia. }
    cbn. split; [reflexivity |]. split; [reflexivity | discriminate].
Qed.

(** What a successful parse guarantees: the file had a full header with the
    magic, the payload is what follows byte 16, width and height are 16-bit
    numbers, the kind is one of the ETC2/EAC names, and the size is between
    0 and [width * height] as long as that product fits an [int]. *)
Theorem ResolvePKM_success_shape (d payload : RawData) (refs : PKMRefs) :
  (ResolvePKM d refs).1 = Some payload ->
  16 <= getLen d /\ take 4 d = PKM_magic /\
  payload = drop 16 d /\ getLen payload = getLen d - 16 /\
  0 <= pkmWidth (ResolvePKM d refs).2 <= 65535 /\
  0 <= pkmHeight (ResolvePKM d refs).2 <= 65535 /\
  GL_COMPRESSED_R11_EAC <= pkmType (ResolvePKM d refs).2 <= GL_COMPRESSED_RGBA8_ETC2_EAC /\
  (pkmWidth (ResolvePKM d refs).2 * pkmHeight (ResolvePKM d refs).2 <= CInt.INT_MAX ->
   0 <= size (ResolvePKM d refs).2
   <= pkmWidth (ResolvePKM d refs).2 * pkmHeight (ResolvePKM d refs).2).
Proof.
  intros Hsome.
  destruct (Z.lt_ge_cases (getLen d) 16) as [Hshort | Hlen].
  { rewrite ResolvePKM_short in Hsome by exact Hshort. discriminate. }
  destruct (List.list_eq_dec Byte.byte_eq_dec (take 4 d) PKM_magic) as [Hok | Hbad].
  2: { rewrite ResolvePKM_bad_magic in Hsome by exact Hbad. discriminate. }
  revert Hsome. rewrite (ResolvePKM_valid d refs Hlen Hok). cbv zeta.
  pose proof (header_dims_range d 8 9) as Hw.
  pose proof (header_dims_range d 10 11) as Hh.
  set (w := 256 * header_at d 8 + header_at d 9) in *.
  set (h := 256 * header_at d 10 + header_at d 11) in *.
  destruct (resolveGLType_rows (header_at d 7) w h (size refs))
    as [Hfail | (sz & ty & Hsz & Hty & Hrow)].
  { rewrite Hfail. cbn. discriminate. }
  rewrite Hrow. cbn [fst snd].
  destruct (Z.eqb_spec ty (-1)) as [E | _].
  { unfold GL_COMPRESSED_R11_EAC in Hty. lia. }
  cbn [fst snd pkmWidth pkmHeight pkmType size]. intros [= <-].
  split; [exact Hlen |]. split; [exact Hok |]. split; [reflexivity |].
  split; [unfold getLen in *; rewrite length_drop; lia |].
  split; [exact Hw |]. split; [exact Hh |]. split; [exact Hty |].
  intros Hfit.
  assert (Hmul : CInt.mul w h = w * h) by (apply mul_exact; nia).
  destruct Hsz as [-> | ->]; rewrite Hmul.
  - nia.
  - rewrite div_two by nia.
    pose proof (Z.div_pos (w * h) 2). pose proof (Z.div_le_upper_bound (w * h) 2 (w * h)).
    nia.
Qed.

Lemma ResolvePKM_success_shape_witness :
  16 <= getLen (pkmFile x01 []) /\ take 4 (pkmFile x01 []) = PKM_magic /\
  [] = drop 16 (pkmFile x01 []) /\ getLen [] = getLen (pkmFile x01 []) - 16 /\
  0 <= pkmWidth (ResolvePKM (pkmFile x01 []) uninitialised).2 <= 65535 /\
  0 <= pkmHeight (ResolvePKM (pkmFile x01 []) uninitialised).2 <= 65535 /\
  GL_COMPRESSED_R11_EAC <= pkmType (ResolvePKM (pkmFile x01 []) uninitialised).2
  <= GL_COMPRESSED_RGBA8_ETC2_EAC /\
  size (ResolvePKM (pkmFile x01 []) uninitialised).2 = 2048.
Proof.
  destruct (ResolvePKM_success_shape (pkmFile x01 []) [] uninitialised eq_refl)
    as (H1 & H2 & H3 & H4 & H5 & H6 & H7 & _).
  repeat split; first [assumption | apply H5 | apply H6 | apply H7 | reflexivity].
Defined.

(** ** Every call of [createInRenderer] takes one of the paths *)

Lemma create_PKM_resolved (processData : Texture -> RawDataRef)
      (si : option RenderSetupInfoGLES) (this : TextureGLES) (ids : list GLuint)
      (d payload : RawData) (refs : PKMRefs) :
  glId this = 0 -> converts processData this ->
  isPVRTC this = false -> isPKM this = true ->
  texData this = Some d -> ResolvePKM d uninitialised = (Some payload, refs) ->
  createInRenderer processData si this ids
  = finish si this ids
      [ glCompressedTexImage2D GL_TEXTURE_2D 0 (pkmType refs)
                               (width this) (height this) 0 (size refs) payload;
        CheckGLError "Texture::createInRenderer() glCompressedTexImage2D()" ].
Proof.
  intros Hid Hv Hp Hk Hd Hr.
  assert (Hc : creatable this) by (left; rewrite Hd; discriminate).
  unfold createInRenderer.
  rewrite (creatable_guard _ Hc), Hid. cbn [Z.eqb negb].
  rewrite (converts_guard _ _ Hv), Hp, Hk, Hd, Hr. reflexivity.
Qed.

Lemma supportedb_cases (x : Texture) : supported x \/ supportedb x = false.
Proof.
  unfold supported, supportedb.
  destruct (Z.eqb_spec (mapInternalFormat (format x) (byteSource x)) GL_NONE);
    [right; reflexivity |].
  destruct (Z.eqb_spec (mapGLFormat (format x) (byteSource x)) GL_NONE);
    [right; reflexivity |].
  destruct (Z.eqb_spec (mapGLType (format x) (byteSource x)) GL_NONE);
    [right; reflexivity |].
  left. tauto.
Qed.

Lemma create_path (processData : Texture -> RawDataRef)
      (si : option RenderSetupInfoGLES) (this : TextureGLES) (ids : list GLuint) :
  CreatePath processData si this ids (createInRenderer processData si this ids).
Proof.
  destruct (texData this) as [d |] eqn:Hd.
  2: destruct (isEmptyTexture this) eqn:He.
  3: { rewrite create_no_data by assumption. apply NothingToCreate; assumption. }
  all: assert (Hc : creatable this)
    by (first [left; rewrite Hd; discriminate | right; exact He]).
  all: destruct (Z.eq_dec (glId this) 0) as [Hid | Hid].
  all: try (rewrite create_created by assumption; apply AlreadyCreated; assumption).
  - (* pixel data present *)
    destruct (processData this) as [cd |] eqn:Hcd.
    2: { rewrite create_conversion_failed by (rewrite ?Hd; done).
         apply ConversionFailed; [assumption | rewrite Hd; discriminate | assumption]. }
    assert (Hv : converts processData this) by (intros _; rewrite Hcd; discriminate).
    destruct (isPVRTC this) eqn:Hp.
    { rewrite create_PVRTC by assumption. apply PvrtcUnsupported; assumption. }
    destruct (isPKM this) eqn:Hk.
    { destruct (ResolvePKM d uninitialised) as [[payload |] refs] eqn:Hr.
      - rewrite (create_PKM_resolved processData si this ids d payload refs) by assumption.
        eapply PkmResolved; eassumption.
      - rewrite (create_PKM_unresolved processData si this ids d)
          by (try assumption; rewrite Hr; reflexivity).
        eapply PkmUnresolved; try eassumption. rewrite Hr. reflexivity. }
    destruct (supportedb_cases this) as [Hs | Hs].
    2: { rewrite create_unknown_format by assumption. apply UnknownFormat; assumption. }
    rewrite create_uncompressed by assumption. cbv zeta. rewrite Hcd.
    fold (expectedLen this).
    destruct (Z.ltb_spec (getLen cd) (expectedLen this)) as [Hlt | Hge].
    { eapply ShortData; eassumption. }
    destruct (Z.eqb_spec (getLen cd) (expectedLen this)) as [Heq | Hne].
    { eapply ExactData; eassumption. }
    eapply SurplusData; try eassumption. lia.
  - (* a placeholder: no pixel data, marked empty *)
    assert (Hv : converts processData this) by (intros Hn; rewrite Hd in Hn; contradiction).
    destruct (isPVRTC this) eqn:Hp.
    { rewrite create_PVRTC by assumption. apply PvrtcUnsupported; assumption. }
    destruct (isPKM this) eqn:Hk.
    { rewrite create_PKM_no_data by assumption. apply PkmWithoutData; assumption. }
    destruct (supportedb_cases this) as [Hs | Hs].
    2: { rewrite create_unknown_format by assumption. apply UnknownFormat; assumption. }
    rewrite create_uncompressed by assumption. cbv zeta.
    fold (expectedLen this).
    destruct (processData this) as [cd |] eqn:Hcd.
    2: { apply NoPixels; assumption. }
    destruct (Z.ltb_spec (getLen cd) (expectedLen this)) as [Hlt | Hge].
    { eapply ShortData; eassumption. }
    destruct (Z.eqb_spec (getLen cd) (expectedLen this)) as [Heq | Hne].
    { eapply ExactData; eassumption. }
    eapply SurplusData; try eassumption. lia.
Qed.

Lemma Returned_inj {A : Type} (a a' : A) (t t' : TextureGLES) (ids ids' : list GLuint)
      (log log' : list GLCall) :
  Returned a t ids log = Returned a' t' ids' log' ->
  a = a' /\ t = t' /\ ids = ids' /\ log = log'.
Proof. intros [= -> -> -> ->]. tauto. Qed.

(** Splits a returned call into the paths it can have taken. *)
Ltac paths H :=
  match type of H with
  | createInRenderer ?pd ?si ?this ?ids = _ =>
      let P := fresh "P" in
      let o := fresh "o" in
      let E := fresh "E" in
      pose proof (create_path pd si this ids) as P;
      remember (createInRenderer pd si this ids) as o eqn:E;
      destruct P; clear E; unfold finish, bail in H;
      first [discriminate H
            | apply Returned_inj in H; destruct H as (? & ? & ? & ?); subst]
  end.

Lemma reset_sameDescription (x : Texture) : sameDescription x (reset_texData x).
Proof. unfold sameDescription. cbn. tauto. Qed.

Lemma sameDescription_refl (x : Texture) : sameDescription x x.
Proof. unfold sameDescription. tauto. Qed.

(** ** What a call leaves of the resource *)

(** [createInRenderer] changes nothing of a texture but its handle and its
    pixel data: a call that returns false keeps the pixel data, a call that
    returns true from the pending state has dropped it, and a handle that is
    set is never replaced. *)
Theorem createInRenderer_keeps_description (processData : Texture -> RawDataRef)
        (si : option RenderSetupInfoGLES) (this t' : TextureGLES)
        (ids ids' : list GLuint) (r : bool) (log : list GLCall) :
  createInRenderer processData si this ids = Returned r t' ids' log ->
  sameDescription this t' /\
  (r = false -> texData t' = texData this) /\
  (r = true -> glId this = 0 -> texData t' = None) /\
  (glId this <> 0 -> glId t' = glId this).
Proof.
  intros H. paths H; cbn [tex glId];
    (split; [first [apply sameDescription_refl | apply reset_sameDescription] |]);
    repeat split; intros; cbn; congruence.
Qed.

Lemma createInRenderer_keeps_description_witness :
  exists t',
    createInRenderer keepData None (mkTextureGLES (rgba4x4 (Some (zeros 15))) 0) [7]
    = Returned false t' [] (setupCalls None (rgba4x4 (Some (zeros 15))) 7 ++ [sizeMismatch]) /\
    sameDescription (rgba4x4 (Some (zeros 15))) t' /\
    texData t' = Some (zeros 15).
Proof.
  eexists. split; [reflexivity |].
  destruct (createInRenderer_keeps_description keepData None
              (mkTextureGLES (rgba4x4 (Some (zeros 15))) 0) _ [7] _ false _ eq_refl)
    as (Hsame & Hkept & _ & _).
  split; [exact Hsame | exact (Hkept eq_refl)].
Defined.

Lemma createInRenderer_held_back_lemma (processData : Texture -> RawDataRef)
      (si : option RenderSetupInfoGLES) (this : TextureGLES) (ids : list GLuint) :
  ~ (creatable this /\ glId this = 0) ->
  exists r : bool,
    createInRenderer processData si this ids = Returned r this ids [] /\
    (r = true <-> creatable this).
Proof.
  intros Hnot. destruct (decide (creatable this)) as [Hc | Hn].
  - exists true. split; [| tauto]. apply create_created; [exact Hc |].
    intros Hid. apply Hnot. split; assumption.
  - exists false. split.
    + apply create_no_data.
      * destruct (texData this) eqn:E; [| reflexivity].
        exfalso. apply Hn. left. rewrite E. discriminate.
      * destruct (isEmptyTexture this) eqn:E; [| reflexivity].
        exfalso. apply Hn. right. exact E.
    + split; [discriminate | contradiction].
Qed.

(** Unless the texture is pending and has something to create from (pixel
    data or the empty mark), [createInRenderer] makes no call into the
    renderer, takes no name from the allocator and leaves the resource as it
    is; what it returns is whether there is something to create from, and
    calling it again, with whatever set-up information, gives the same. *)
Theorem createInRenderer_held_back (processData : Texture -> RawDataRef)
        (si si' : option RenderSetupInfoGLES) (this : TextureGLES) (ids : list GLuint) :
  ~ (creatable this /\ glId this = 0) ->
  exists r : bool,
    createInRenderer processData si this ids = Returned r this ids [] /\
    (r = true <-> creatable this) /\
    andThen (createInRenderer processData si this ids) (createInRenderer processData si')
    = Returned r this ids [].
Proof.
  intros Hnot.
  destruct (createInRenderer_held_back_lemma processData si this ids Hnot)
    as (r & H & Hr).
  destruct (createInRenderer_held_back_lemma processData si' this ids Hnot)
    as (r' & H' & Hr').
  assert (r' = r) as ->.
  { destruct r, r'; try reflexivity.
    - apply Hr', Hr. reflexivity.
    - symmetry. apply Hr, Hr'. reflexivity. }
  exists r. split; [exact H |]. split; [exact Hr |].
  unfold andThen. rewrite H, H'. reflexivity.
Qed.

Lemma createInRenderer_held_back_witness :
  exists r : bool,
    createInRenderer keepData (Some pooled) (mkTextureGLES empty4x4 7) [8; 9]
    = Returned r (mkTextureGLES empty4x4 7) [8; 9] [] /\
    (r = true <-> creatable (mkTextureGLES empty4x4 7)) /\
    andThen (createInRenderer keepData (Some pooled) (mkTextureGLES empty4x4 7) [8; 9])
            (createInRenderer keepData None)
    = Returned r (mkTextureGLES empty4x4 7) [8; 9] [].
Proof.
  refine (createInRenderer_held_back keepData (Some pooled) None
                                     (mkTextureGLES empty4x4 7) [8; 9] _).
  intros [_ Hid]. vm_compute in Hid. discriminate.
Defined.

(** ** Names taken from the allocator *)

Lemma setupCalls_allocation (si : option RenderSetupInfoGLES) (x : Texture) (id : GLuint) :
  head (setupCalls si x id)
  = Some (if hasMemManager si then getTexID id else glGenTextures 1 id) /\
  existsb isAllocation (tl (setupCalls si x id)) = false /\
  existsb isMipmap (setupCalls si x id) = false.
Proof.
  unfold setupCalls.
  destruct (hasMemManager si), (usesMipmaps x); repeat split; reflexivity.
Qed.

Lemma log_allocation (si : option RenderSetupInfoGLES) (x : Texture) (id : GLuint)
      (rest : list GLCall) :
  existsb isAllocation rest = false ->
  head (setupCalls si x id ++ rest)
  = Some (if hasMemManager si then getTexID id else glGenTextures 1 id) /\
  existsb isAllocation (tl (setupCalls si x id ++ rest)) = false.
Proof.
  intros Hrest.
  destruct (setupCalls_allocation si x id) as (Hhead & Htail & _).
  destruct (setupCalls si x id) as [| c l]; [discriminate |].
  cbn [head tl app] in *. split; [exact Hhead |].
  rewrite existsb_app, Htail, Hrest. reflexivity.
Qed.

Lemma mipmapCalls_no_allocation (x : Texture) :
  existsb isAllocation (mipmapCalls x) = false.
Proof. unfold mipmapCalls. destruct (usesMipmaps x); reflexivity. Qed.

Lemma create_allocation (processData : Texture -> RawDataRef)
      (si : option RenderSetupInfoGLES) (this t' : TextureGLES)
      (ids ids' : list GLuint) (r : bool) (log : list GLCall) :
  creatable this -> glId this = 0 ->
  createInRenderer processData si this ids = Returned r t' ids' log ->
  ids' = tl ids /\ glId t' = nextTexID ids /\
  head log = Some (if hasMemManager si then getTexID (nextTexID ids)
                   else glGenTextures 1 (nextTexID ids)) /\
  existsb isAllocation (tl log) = false.
Proof.
  intros Hc Hid H. paths H.
  all: try congruence.
  all: try (destruct Hc; congruence).
  all: split; [reflexivity |]; split; [reflexivity |].
  all: apply log_allocation.
  all: rewrite ?existsb_app, ?mipmapCalls_no_allocation; reflexivity.
Qed.

Lemma filter_none (p : GLCall -> bool) (l : list GLCall) :
  existsb p l = false -> filter (fun c => p c = true) l = [].
Proof.
  induction l as [| c l IH]; [reflexivity |].
  cbn [existsb]. intros H. apply orb_false_iff in H as [Hc Hl].
  rewrite filter_cons_False by (rewrite Hc; discriminate). apply IH, Hl.
Qed.

(** A call on a pending texture that has something to create from takes
    exactly one name from the allocator, whether it then succeeds or fails:
    the first call it makes is [getTexID] of the memory manager if the
    set-up information has one and [glGenTextures] if not, it is the only
    allocation in the log, and the handle is that name. *)
Theorem createInRenderer_allocates_once (processData : Texture -> RawDataRef)
        (si : option RenderSetupInfoGLES) (this t' : TextureGLES)
        (ids ids' : list GLuint) (r : bool) (log : list GLCall) :
  creatable this -> glId this = 0 ->
  createInRenderer processData si this ids = Returned r t' ids' log ->
  ids' = tl ids /\ glId t' = nextTexID ids /\
  head log = Some (if hasMemManager si then getTexID (nextTexID ids)
                   else glGenTextures 1 (nextTexID ids)) /\
  filter (fun c => isAllocation c = true) log
  = [if hasMemManager si then getTexID (nextTexID ids)
     else glGenTextures 1 (nextTexID ids)].
Proof.
  intros Hc Hid H.
  destruct (create_allocation processData si this t' ids ids' r log Hc Hid H)
    as (Hids & Hnew & Hhead & Htail).
  split; [exact Hids |]. split; [exact Hnew |]. split; [exact Hhead |].
  destruct log as [| c rest]; [discriminate Hhead |].
  cbn [head tl] in Hhead, Htail. injection Hhead as ->.
  rewrite filter_cons_True by (destruct (hasMemManager si); reflexivity).
  rewrite (filter_none isAllocation rest Htail). reflexivity.
Qed.

Lemma createInRenderer_allocates_once_witness :
  exists t' ids' log,
    createInRenderer keepData (Some pooled)
                     (mkTextureGLES (rgba4x4 (Some (zeros 15))) 0) [7; 8]
    = Returned false t' ids' log /\
    ids' = [8] /\ glId t' = 7 /\
    head log = Some (getTexID 7) /\
    filter (fun c => isAllocation c = true) log = [getTexID 7].
Proof.
  do 3 eexists. split; [reflexivity |].
  refine (createInRenderer_allocates_once keepData (Some pooled)
            (mkTextureGLES (rgba4x4 (Some (zeros 15))) 0) _ [7; 8] _ false _ _ _ eq_refl).
  - left. discriminate.
  - reflexivity.
Defined.

(** [createInRenderer] never gives a name back: no path calls [removeTexID],
    the failing ones included, so after a failure the name it took is still
    allocated. *)
Theorem createInRenderer_never_releases (processData : Texture -> RawDataRef)
        (si : option RenderSetupInfoGLES) (this t' : TextureGLES)
        (ids ids' : list GLuint) (r : bool) (log : list GLCall) :
  createInRenderer processData si this ids = Returned r t' ids' log ->
  existsb isRelease log = false /\
  (r = false -> creatable this -> glId this = 0 -> glId t' = nextTexID ids).
Proof.
  intros H. paths H; (split; [read_log; reflexivity |]);
    intros; first [reflexivity | discriminate | contradiction | idtac].
  match goal with Hc : creatable _ |- _ => destruct Hc; congruence end.
Qed.

Lemma createInRenderer_never_releases_witness :
  exists t' ids' log,
    createInRenderer (fun _ => None) (Some pooled)
                     (mkTextureGLES (rgba4x4 (Some (zeros 64))) 0) [7]
    = Returned false t' ids' log /\
    existsb isRelease log = false /\ glId t' = 7.
Proof.
  do 3 eexists. split; [reflexivity |].
  destruct (createInRenderer_never_releases (fun _ => None) (Some pooled)
              (mkTextureGLES (rgba4x4 (Some (zeros 64))) 0) _ [7] _ false _ eq_refl)
    as [Hrel Hid].
  split; [exact Hrel | reflexivity].
Defined.

(** ** When a call fails, and when it cannot return at all *)

(** [createInRenderer] dereferences a null pointer in exactly one situation:
    a pending placeholder (no pixel data, marked empty) that is flagged PKM
    and not PVRTC, where [ResolvePKM] is handed the null [texData]. *)
Theorem createInRenderer_null_dereference (processData : Texture -> RawDataRef)
        (si : option RenderSetupInfoGLES) (this : TextureGLES) (ids : list GLuint) :
  createInRenderer processData si this ids = NullDeref <->
  texData this = None /\ isEmptyTexture this = true /\ glId this = 0 /\
  isPVRTC this = false /\ isPKM this = true.
Proof.
  split.
  - intros H. pose proof (create_path processData si this ids) as P.
    remember (createInRenderer processData si this ids) as o eqn:E.
    destruct P; clear E; unfold finish, bail in H; try discriminate H. tauto.
  - intros (Hd & He & Hid & Hp & Hk). apply create_PKM_no_data; assumption.
Qed.

(** [createInRenderer] returns false in exactly three situations: there is
    nothing to create from; the texture is pending and [processData] handed
    back nothing for its pixel data; or the texture is pending, on the
    uncompressed path of a supported format, and the converted data is
    shorter than the expected size. *)
Theorem createInRenderer_fails_iff (processData : Texture -> RawDataRef)
        (si : option RenderSetupInfoGLES) (this : TextureGLES) (ids : list GLuint) :
  (exists t' ids' log,
      createInRenderer processData si this ids = Returned false t' ids' log) <->
  (texData this = None /\ isEmptyTexture this = false) \/
  (glId this = 0 /\ texData this <> None /\ processData this = None) \/
  (glId this = 0 /\ creatable this /\ isPVRTC this = false /\ isPKM this = false /\
   supported this /\
   exists cd, processData this = Some cd /\ getLen cd < expectedLen this).
Proof.
  split.
  - intros (t' & ids' & log & H). paths H.
    + left. tauto.
    + right. left. tauto.
    + right. right. do 5 (split; [assumption |]). eexists. split; eassumption.
  - intros [(Hd & He) | [(Hid & Hd & Hp) | (Hid & Hc & Hp & Hk & Hs & cd & Hcd & Hlt)]].
    + do 3 eexists. apply create_no_data; assumption.
    + do 3 eexists. apply create_conversion_failed; assumption.
    + do 3 eexists.
      rewrite create_uncompressed; try assumption.
      * cbv zeta. rewrite Hcd. fold (expectedLen this).
        destruct (Z.ltb_spec (getLen cd) (expectedLen this)); [reflexivity | lia].
      * intros _. rewrite Hcd. discriminate.
Qed.

(** ** The set-up information *)

(** The set-up information decides where the name comes from and nothing
    else: with any two of them a call ends the same way, returns the same
    result, leaves the same resource and the same names, and makes the same
    calls after the first. *)
Theorem createInRenderer_setup_info (processData : Texture -> RawDataRef)
        (si si' : option RenderSetupInfoGLES) (this : TextureGLES) (ids : list GLuint) :
  match createInRenderer processData si this ids,
        createInRenderer processData si' this ids with
  | Returned r t i log, Returned r' t' i' log' =>
      r = r' /\ t = t' /\ i = i' /\ tl log = tl log' /\
      (log = [] <-> log' = [])
  | NullDeref, NullDeref => True
  | _, _ => False
  end.
Proof.
  assert (Htl : forall l, tl (setupCalls si this (nextTexID ids) ++ l)
                          = tl (setupCalls si' this (nextTexID ids) ++ l))
    by (intros l; reflexivity).
  assert (Hnil : forall l, setupCalls si this (nextTexID ids) ++ l = [] <->
                           setupCalls si' this (nextTexID ids) ++ l = [])
    by (intros l; split; discriminate).
  unfold createInRenderer, finish, bail.
  destruct (bool_decide (texData this = None) && negb (isEmptyTexture this));
    [tauto |].
  destruct (negb (glId this =? 0)); [tauto |].
  destruct (bool_decide (texData this <> None) && bool_decide (processData this = None));
    [auto |].
  destruct (isPVRTC this); [auto |].
  destruct (isPKM this).
  { destruct (texData this) as [d |]; [| exact I].
    destruct (ResolvePKM d uninitialised) as [[payload |] refs]; auto. }
  destruct (negb _ && negb _ && negb _); [| auto].
  destruct (processData this) as [cd |]; [| auto].
  destruct (negb _); [| auto].
  destruct (_ <? _); auto.
Qed.

(** ** The size check, completed *)

(** On the uncompressed path of a supported format, a pending texture whose
    converted data has at least the expected size is created with success,
    and only then; data of exactly the expected size is uploaded without a
    warning or an error, as it is and with the width and height of the
    texture.  The expected size is [bytesPerRow(width) * height] whenever
    that product is between 0 and [INT_MAX]. *)
Theorem createInRenderer_size_exact (processData : Texture -> RawDataRef)
        (si : option RenderSetupInfoGLES) (this : TextureGLES) (ids : list GLuint)
        (cd : RawData) :
  creatable this -> glId this = 0 ->
  isPVRTC this = false -> isPKM this = false -> supported this ->
  processData this = Some cd ->
  ((exists t' ids' log,
       createInRenderer processData si this ids = Returned true t' ids' log) <->
   expectedLen this <= getLen cd) /\
  (getLen cd = expectedLen this ->
   exists t' ids' log,
     createInRenderer processData si this ids = Returned true t' ids' log /\
     existsb isWarnLog log = false /\
     existsb isErrorLog log = false /\
     In (glTexImage2D GL_TEXTURE_2D 0
                      (mapInternalFormat (format this) (byteSource this))
                      (width this) (height this) 0
                      (mapGLFormat (format this) (byteSource this))
                      (mapGLType (format this) (byteSource this)) (Some cd)) log) /\
  (0 <= getBytesPerRow (format this) (width this) * height this <= CInt.INT_MAX ->
   expectedLen this = getBytesPerRow (format this) (width this) * height this).
Proof.
  intros Hc Hid Hp Hk Hs Hcd.
  assert (Hv : converts processData this) by (intros _; rewrite Hcd; discriminate).
  pose proof (create_uncompressed processData si this ids Hc Hid Hv Hp Hk Hs) as Hcreate.
  cbv zeta in Hcreate. rewrite Hcd in Hcreate. fold (expectedLen this) in Hcreate.
  split; [| split].
  - rewrite Hcreate.
    destruct (Z.ltb_spec (getLen cd) (expectedLen this)) as [Hlt | Hge].
    + split; [intros (t' & ids' & log & H); discriminate H | lia].
    + split; [intros _; exact Hge |]. intros _.
      destruct (getLen cd =? expectedLen this); do 3 eexists; reflexivity.
  - intros Heq. rewrite Hcreate.
    destruct (Z.ltb_spec (getLen cd) (expectedLen this)) as [Hlt | _]; [lia |].
    rewrite (proj2 (Z.eqb_eq _ _) Heq).
    do 3 eexists. split; [reflexivity |]. read_log.
    split; [reflexivity |]. split; [reflexivity |].
    apply in_or_app. right. apply in_or_app. left. right. left. reflexivity.
  - intros Hrange. apply expected_exact, Hrange.
Qed.

Lemma createInRenderer_size_exact_witness :
  exists t' ids' log,
    createInRenderer keepData None (mkTextureGLES (rgba4x4 (Some (zeros 16))) 0) [7]
    = Returned true t' ids' log /\
    existsb isWarnLog log = false /\
    existsb isErrorLog log = false /\
    In (glTexImage2D GL_TEXTURE_2D 0 GL_RGBA8 4 4 0 GL_RGBA GL_UNSIGNED_BYTE
                     (Some (zeros 16))) log.
Proof.
  refine (proj1 (proj2 (createInRenderer_size_exact keepData None
                          (mkTextureGLES (rgba4x4 (Some (zeros 16))) 0) [7] (zeros 16)
                          _ _ _ _ _ _)) _).
  - left. discriminate.
  - reflexivity.
  - reflexivity.
  - reflexivity.
  - apply unsigned_byte_supported. reflexivity.
  - reflexivity.
  - reflexivity.
Defined.

(** ** The PKM upload *)

(** When the header of a pending PKM texture resolves, the call succeeds and
    uploads the payload with the kind and the size read from the header but
    with the width and height of the texture itself (those of the header are
    not used), and without comparing the size with the bytes the payload
    holds; no error is logged and the pixel data is dropped. *)
Theorem createInRenderer_PKM_upload (processData : Texture -> RawDataRef)
        (si : option RenderSetupInfoGLES) (this : TextureGLES) (ids : list GLuint)
        (d payload : RawData) (refs : PKMRefs) :
  glId this = 0 -> converts processData this ->
  isPVRTC this = false -> isPKM this = true ->
  texData this = Some d -> ResolvePKM d uninitialised = (Some payload, refs) ->
  exists t' log,
    createInRenderer processData si this ids = Returned true t' (tl ids) log /\
    glId t' = nextTexID ids /\ texData t' = None /\
    filter (fun c => isUpload c = true) log
    = [glCompressedTexImage2D GL_TEXTURE_2D 0 (pkmType refs)
                              (width this) (height this) 0 (size refs) payload] /\
    existsb isErrorLog log = false.
Proof.
  intros Hid Hv Hp Hk Hd Hr.
  rewrite (create_PKM_resolved processData si this ids d payload refs) by assumption.
  unfold finish. do 2 eexists. split; [reflexivity |].
  split; [reflexivity |]. split; [reflexivity |]. split.
  - unfold setupCalls, mipmapCalls.
    destruct (hasMemManager si), (usesMipmaps this); reflexivity.
  - read_log. reflexivity.
Qed.

Lemma createInRenderer_PKM_upload_witness :
  exists t' log,
    createInRenderer keepData None (mkTextureGLES (pkm64x64 (Some (pkmFile x03 []))) 0) [7]
    = Returned true t' [] log /\
    glId t' = 7 /\ texData t' = None /\
    filter (fun c => isUpload c = true) log
    = [glCompressedTexImage2D GL_TEXTURE_2D 0 GL_COMPRESSED_RGBA8_ETC2_EAC
                              64 64 0 4096 []] /\
    existsb isErrorLog log = false.
Proof.
  refine (createInRenderer_PKM_upload keepData None
            (mkTextureGLES (pkm64x64 (Some (pkmFile x03 []))) 0) [7]
            (pkmFile x03 []) [] (mkPKMRefs GL_COMPRESSED_RGBA8_ETC2_EAC 4096 64 64)
            _ _ _ _ _ _).
  - reflexivity.
  - intros H. exact H.
  - reflexivity.
  - reflexivity.
  - reflexivity.
  - reflexivity.
Defined.

(** ** After a failed conversion *)

(** A failed conversion is not undone either: when [processData] hands back
    nothing for the pixel data of a pending texture, the call logs an error
    and returns false without an upload, but the name it took is set as the
    handle and the pixel data is kept; a further call then returns true at
    once, without a call into the renderer. *)
Theorem createInRenderer_conversion_then_again (processData : Texture -> RawDataRef)
        (si si' : option RenderSetupInfoGLES) (this : TextureGLES)
        (ids : list GLuint) (d : RawData) :
  glId this = 0 -> texData this = Some d -> processData this = None ->
  nextTexID ids <> 0 ->
  exists t1 log1,
    createInRenderer processData si this ids = Returned false t1 (tl ids) log1 /\
    existsb isErrorLog log1 = true /\ existsb isUpload log1 = false /\
    glId t1 = nextTexID ids /\ texData t1 = Some d /\
    createInRenderer processData si' t1 (tl ids) = Returned true t1 (tl ids) [].
Proof.
  intros Hid Hd Hp Hnext.
  rewrite create_conversion_failed by (rewrite ?Hd; done).
  unfold bail. do 2 eexists. split; [reflexivity |].
  split; [read_log; reflexivity |]. split; [read_log; reflexivity |].
  split; [reflexivity |]. split; [exact Hd |].
  apply create_created; [left; cbn; rewrite Hd; discriminate | exact Hnext].
Qed.

Lemma createInRenderer_conversion_then_again_witness :
  exists t1 log1,
    createInRenderer (fun _ => None) None
                     (mkTextureGLES (rgba4x4 (Some (zeros 64))) 0) [7]
    = Returned false t1 [] log1 /\
    existsb isErrorLog log1 = true /\ existsb isUpload log1 = false /\
    glId t1 = 7 /\ texData t1 = Some (zeros 64) /\
    createInRenderer (fun _ => None) (Some pooled) t1 [] = Returned true t1 [] [].
Proof.
  refine (createInRenderer_conversion_then_again (fun _ => None) None (Some pooled)
            (mkTextureGLES (rgba4x4 (Some (zeros 64))) 0) [7] (zeros 64) _ _ _ _).
  - reflexivity.
  - reflexivity.
  - reflexivity.
  - vm_compute. discriminate.
Defined.

(** ** Mip-maps, uploads and errors *)

Lemma mipmapCalls_mipmap (x : Texture) :
  existsb isMipmap (mipmapCalls x) = usesMipmaps x.
Proof. unfold mipmapCalls. destruct (usesMipmaps x); reflexivity. Qed.

(** The mip chain is generated exactly when a pending texture that asks for
    mip-maps is created with success, and that includes the successes that
    uploaded nothing (PVRTC, a rejected PKM header, a format unknown to the
    resolver); a call that returns false never generates it. *)
Theorem createInRenderer_mipmaps (processData : Texture -> RawDataRef)
        (si : option RenderSetupInfoGLES) (this t' : TextureGLES)
        (ids ids' : list GLuint) (r : bool) (log : list GLCall) :
  createInRenderer processData si this ids = Returned r t' ids' log ->
  (existsb isMipmap log = true <->
   r = true /\ glId this = 0 /\ usesMipmaps this = true).
Proof.
  intros H. paths H.
  all: rewrite ?existsb_app, ?mipmapCalls_mipmap,
         ?(proj2 (proj2 (setupCalls_allocation _ _ _))).
  all: unfold texImageCalls, sizeMismatch; cbn [existsb isMipmap orb].
  all: try (split; [discriminate | intros (? & ? & ?); congruence]).
  all: split; [intros ->; tauto | tauto].
Qed.

Lemma createInRenderer_mipmaps_witness :
  exists t' log,
    createInRenderer keepData None
      (mkTextureGLES (mkTexture (Some (zeros 32)) false TexTypeUnsignedByte WKSingleAlpha
                                8 8 true false true false false TexInterpLinear) 0) [7]
    = Returned true t' [] log /\
    existsb isMipmap log = true /\ existsb isUpload log = false.
Proof.
  do 2 eexists. split; [reflexivity |]. split; [| reflexivity].
  refine (proj2 (createInRenderer_mipmaps keepData None
                   (mkTextureGLES (mkTexture (Some (zeros 32)) false TexTypeUnsignedByte
                                             WKSingleAlpha 8 8 true false true false false
                                             TexInterpLinear) 0)
                   _ [7] _ true _ eq_refl) _).
  repeat split; reflexivity.
Defined.

(** A call that returns false has uploaded nothing.  A call that returns true
    from the pending state has either made exactly one upload or logged an
    error, never both and never neither: success alone does not say that
    the texture holds pixels. *)
Theorem createInRenderer_upload_or_error (processData : Texture -> RawDataRef)
        (si : option RenderSetupInfoGLES) (this t' : TextureGLES)
        (ids ids' : list GLuint) (r : bool) (log : list GLCall) :
  createInRenderer processData si this ids = Returned r t' ids' log ->
  (r = false -> existsb isUpload log = false) /\
  (r = true -> glId this = 0 ->
   (existsb isUpload log = true <-> existsb isErrorLog log = false)) /\
  (length (filter (fun c => isUpload c = true) log) <= 1)%nat.
Proof.
  intros H. paths H.
  all: split; [intros Hr; first [discriminate Hr | read_log; reflexivity] |].
  all: split; [intros Hr H0'; first [discriminate Hr | contradiction
                                    | read_log; split; intros; first [reflexivity | discriminate]] |].
  all: unfold setupCalls, mipmapCalls, texImageCalls, sizeMismatch.
  all: repeat match goal with
              | |- context [hasMemManager ?c] => destruct (hasMemManager c)
              | |- context [usesMipmaps ?c] => destruct (usesMipmaps c)
              end.
  all: vm_compute; lia.
Qed.

Lemma createInRenderer_upload_or_error_witness :
  exists t' log,
    createInRenderer keepData None (mkTextureGLES (green4x4 (Some (zeros 16))) 0) [7]
    = Returned true t' [] log /\
    (existsb isUpload log = true <-> existsb isErrorLog log = false) /\
    existsb isErrorLog log = true.
Proof.
  do 2 eexists. split; [reflexivity |]. split; [| reflexivity].
  refine (proj1 (proj2 (createInRenderer_upload_or_error keepData None
                          (mkTextureGLES (green4x4 (Some (zeros 16))) 0)
                          _ [7] _ true _ eq_refl)) eq_refl eq_refl).
Defined.

(** A placeholder (no pixel data, marked empty, nothing handed back by
    [processData]) of a supported format gets its storage from
    [glTexImage2D] with a null data pointer and the width and height of the
    texture; no size is checked and nothing is logged as warning or error. *)
Theorem createInRenderer_empty_storage (processData : Texture -> RawDataRef)
        (si : option RenderSetupInfoGLES) (this : TextureGLES) (ids : list GLuint) :
  texData this = None -> isEmptyTexture this = true -> glId this = 0 ->
  isPVRTC this = false -> isPKM this = false -> supported this ->
  processData this = None ->
  exists t' log,
    createInRenderer processData si this ids = Returned true t' (tl ids) log /\
    filter (fun c => isUpload c = true) log
    = [glTexImage2D GL_TEXTURE_2D 0 (mapInternalFormat (format this) (byteSource this))
                    (width this) (height this) 0
                    (mapGLFormat (format this) (byteSource this))
                    (mapGLType (format this) (byteSource this)) None] /\
    existsb isWarnLog log = false /\ existsb isErrorLog log = false.
Proof.
  intros Hd He Hid Hp Hk Hs Hpd.
  assert (Hc : creatable this) by (right; exact He).
  assert (Hv : converts processData this) by (intros Hn; contradiction).
  rewrite create_uncompressed by assumption. cbv zeta. rewrite Hpd.
  unfold finish. do 2 eexists. split; [reflexivity |]. split.
  - unfold setupCalls, mipmapCalls, texImageCalls.
    destruct (hasMemManager si), (usesMipmaps this); reflexivity.
  - read_log. split; reflexivity.
Qed.

Lemma createInRenderer_empty_storage_witness :
  exists t' log,
    createInRenderer keepData (Some pooled) (mkTextureGLES empty4x4 0) [7]
    = Returned true t' [] log /\
    filter (fun c => isUpload c = true) log
    = [glTexImage2D GL_TEXTURE_2D 0 GL_RGBA8 4 4 0 GL_RGBA GL_UNSIGNED_BYTE None] /\
    existsb isWarnLog log = false /\ existsb isErrorLog log = false.
Proof.
  refine (createInRenderer_empty_storage keepData (Some pooled)
                                         (mkTextureGLES empty4x4 0) [7] _ _ _ _ _ _ _).
  - reflexivity.
  - reflexivity.
  - reflexivity.
  - reflexivity.
  - reflexivity.
  - apply unsigned_byte_supported. reflexivity.
  - reflexivity.
Defined.

(** ** [destroyInRenderer], case by case *)

(** [destroyInRenderer] does nothing to a texture that has no handle,
    whatever the set-up information; it dereferences a null pointer exactly
    when the handle is set and the set-up information is there without a
    memory manager; and whenever it returns it has left the resource and the
    allocator as they were, having made no call or the one [removeTexID] of
    the handle. *)
Theorem destroyInRenderer_cases (si : option RenderSetupInfoGLES) (this : TextureGLES)
        (ids : list GLuint) :
  (glId this = 0 -> destroyInRenderer si this ids = Returned tt this ids []) /\
  (destroyInRenderer si this ids = NullDeref <->
   glId this <> 0 /\ exists s, si = Some s /\ memManager s = None) /\
  (forall (a : unit) (t' : TextureGLES) (ids' : list GLuint) (log : list GLCall),
      destroyInRenderer si this ids = Returned a t' ids' log ->
      t' = this /\ ids' = ids /\
      (log = [] \/ (log = [removeTexID (glId this)] /\ glId this <> 0))).
Proof.
  split; [| split].
  - intros Hid. unfold destroyInRenderer. rewrite Hid. reflexivity.
  - split.
    + intros H. destruct (Z.eq_dec (glId this) 0) as [Hid | Hid].
      { unfold destroyInRenderer in H. rewrite Hid in H. discriminate H. }
      split; [exact Hid |].
      destruct si as [s |]; [| rewrite destroy_without_setup in H; discriminate H].
      exists s. split; [reflexivity |].
      destruct (memManager s) as [mm |] eqn:Hmm; [| reflexivity].
      rewrite (destroy_pooled s mm this ids Hid Hmm) in H. discriminate H.
    + intros (Hid & s & -> & Hmm). apply destroy_without_manager; assumption.
  - intros a t' ids' log H.
    destruct (Z.eq_dec (glId this) 0) as [Hid | Hid].
    { unfold destroyInRenderer in H. rewrite Hid in H.
      apply Returned_inj in H as (_ & <- & <- & <-). tauto. }
    destruct si as [s |].
    2: { rewrite destroy_without_setup in H.
         apply Returned_inj in H as (_ & <- & <- & <-). tauto. }
    destruct (memManager s) as [mm |] eqn:Hmm.
    + rewrite (destroy_pooled s mm this ids Hid Hmm) in H.
      apply Returned_inj in H as (_ & <- & <- & <-). tauto.
    + rewrite (destroy_without_manager s this ids Hid Hmm) in H. discriminate H.
Qed.

(** ** Creating and destroying *)

(** With set-up information that has a memory manager, the name a call of
    [createInRenderer] took from the pool by [getTexID] is the one a
    following [destroyInRenderer] hands to [removeTexID], also when the
    creation failed after the allocation. *)
Theorem create_then_destroy_pooled (processData : Texture -> RawDataRef)
        (s : RenderSetupInfoGLES) (mm : OpenGLMemManager) (this t' : TextureGLES)
        (ids ids' : list GLuint) (r : bool) (log : list GLCall) :
  memManager s = Some mm -> creatable this -> glId this = 0 -> nextTexID ids <> 0 ->
  createInRenderer processData (Some s) this ids = Returned r t' ids' log ->
  head log = Some (getTexID (nextTexID ids)) /\
  destroyInRenderer (Some s) t' ids' = Returned tt t' ids' [removeTexID (nextTexID ids)] /\
  andThen (createInRenderer processData (Some s) this ids) (destroyInRenderer (Some s))
  = Returned tt t' ids' (log ++ [removeTexID (nextTexID ids)]).
Proof.
  intros Hmm Hc Hid Hnext H.
  destruct (create_allocation processData (Some s) this t' ids ids' r log Hc Hid H)
    as (_ & Hnew & Hhead & _).
  assert (Hdestroy : destroyInRenderer (Some s) t' ids'
                     = Returned tt t' ids' [removeTexID (nextTexID ids)]).
  { rewrite <- Hnew. apply (destroy_pooled s mm); [rewrite Hnew; exact Hnext | exact Hmm]. }
  split; [| split].
  - rewrite Hhead. cbn [hasMemManager]. rewrite Hmm.
    rewrite bool_decide_eq_true_2 by (eexists; reflexivity). reflexivity.
  - exact Hdestroy.
  - unfold andThen. rewrite H, Hdestroy. reflexivity.
Qed.

Lemma create_then_destroy_pooled_witness :
  exists t' log,
    createInRenderer keepData (Some pooled)
                     (mkTextureGLES (rgba4x4 (Some (zeros 15))) 0) [7]
    = Returned false t' [] log /\
    head log = Some (getTexID 7) /\
    destroyInRenderer (Some pooled) t' [] = Returned tt t' [] [removeTexID 7].
Proof.
  do 2 eexists. split; [reflexivity |].
  destruct (create_then_destroy_pooled keepData pooled TheMemManager
              (mkTextureGLES (rgba4x4 (Some (zeros 15))) 0) _ [7] _ false _
              eq_refl (or_introl (fun E => eq_ind (Some (zeros 15))
                                   (fun o => match o with Some _ => True | None => False end)
                                   I None E))
              eq_refl (fun E => eq_ind 7 (fun z => match z with 0 => False | _ => True end)
                                   I 0 E)
              eq_refl) as (Hhead & Hdestroy & _).
  split; [exact Hhead | exact Hdestroy].
Defined.

(** With set-up information that has no memory manager the two functions do
    not match: [createInRenderer] falls back on [glGenTextures] and returns,
    and a following [destroyInRenderer] with the same set-up information
    dereferences the null memory manager; with no set-up information at all
    it returns without a call, so the name is never given back. *)
Theorem create_then_destroy_unpooled (processData : Texture -> RawDataRef)
        (s : RenderSetupInfoGLES) (this t' : TextureGLES)
        (ids ids' : list GLuint) (r : bool) (log : list GLCall) :
  memManager s = None -> creatable this -> glId this = 0 -> nextTexID ids <> 0 ->
  createInRenderer processData (Some s) this ids = Returned r t' ids' log ->
  head log = Some (glGenTextures 1 (nextTexID ids)) /\
  destroyInRenderer (Some s) t' ids' = NullDeref /\
  andThen (createInRenderer processData (Some s) this ids) (destroyInRenderer (Some s))
  = NullDeref /\
  destroyInRenderer None t' ids' = Returned tt t' ids' [].
Proof.
  intros Hmm Hc Hid Hnext H.
  destruct (create_allocation processData (Some s) this t' ids ids' r log Hc Hid H)
    as (_ & Hnew & Hhead & _).
  assert (Hdestroy : destroyInRenderer (Some s) t' ids' = NullDeref).
  { apply destroy_without_manager; [rewrite Hnew; exact Hnext | exact Hmm]. }
  split; [| split; [| split]].
  - rewrite Hhead. cbn [hasMemManager]. rewrite Hmm.
    rewrite bool_decide_eq_false_2 by (intros [x Hx]; discriminate). reflexivity.
  - exact Hdestroy.
  - unfold andThen. rewrite H, Hdestroy. reflexivity.
  - apply destroy_without_setup.
Qed.

Lemma create_then_destroy_unpooled_witness :
  exists t' log,
    createInRenderer keepData (Some unpooled)
                     (mkTextureGLES (rgba4x4 (Some (zeros 16))) 0) [7]
    = Returned true t' [] log /\
    head log = Some (glGenTextures 1 7) /\
    destroyInRenderer (Some unpooled) t' [] = NullDeref.
Proof.
  do 2 eexists. split; [reflexivity |].
  destruct (create_then_destroy_unpooled keepData unpooled
              (mkTextureGLES (rgba4x4 (Some (zeros 16))) 0) _ [7] _ true _
              eq_refl (or_introl (fun E => eq_ind (Some (zeros 16))
                                   (fun o => match o with Some _ => True | None => False end)
                                   I None E))
              eq_refl (fun E => eq_ind 7 (fun z => match z with 0 => False | _ => True end)
                                   I 0 E)
              eq_refl) as (Hhead & Hdestroy & _).
  split; [exact Hhead | exact Hdestroy].
Defined.

(** ** A second call *)

(** After a call from the pending state that took a non-zero name, a second
    call makes no call into the renderer and changes nothing; for a texture
    with pixel data (not marked empty) it returns the opposite of what the
    first call returned, and for a placeholder it returns true. *)
Theorem createInRenderer_second_call (processData : Texture -> RawDataRef)
        (si si' : option RenderSetupInfoGLES) (this t1 : TextureGLES)
        (ids ids1 : list GLuint) (r : bool) (log1 : list GLCall) :
  creatable this -> glId this = 0 -> nextTexID ids <> 0 ->
  createInRenderer processData si this ids = Returned r t1 ids1 log1 ->
  exists r2 : bool,
    createInRenderer processData si' t1 ids1 = Returned r2 t1 ids1 [] /\
    (isEmptyTexture this = false -> r2 = negb r) /\
    (isEmptyTexture this = true -> r2 = true).
Proof.
  intros Hc Hid Hnext H.
  destruct (create_allocation processData si this t1 ids ids1 r log1 Hc Hid H)
    as (_ & Hnew & _ & _).
  destruct (createInRenderer_held_back_lemma processData si' t1 ids1) as (r2 & H2 & Hr2).
  { intros [_ Hz]. rewrite Hnew in Hz. contradiction. }
  exists r2. split; [exact H2 |].
  assert (Hr2' : r2 = true <->
                 (r = false \/ isEmptyTexture this = true)).
  { rewrite Hr2. clear H2 Hr2 Hnew. unfold creatable in *. paths H; cbn [tex texData isEmptyTexture reset_texData];
      try congruence; try (destruct Hc; congruence).
    all: split; [intros [Hx | Hx]; first [contradiction | congruence | tauto] | ].
    all: try tauto.
    all: intros [Hx | Hx]; first [discriminate Hx | tauto]. }
  split.
  - intros He. destruct r, r2; cbn; try reflexivity.
    + destruct (proj1 Hr2' eq_refl); congruence.
    + apply Hr2'. left. reflexivity.
  - intros He. apply Hr2'. right. exact He.
Qed.

Lemma createInRenderer_second_call_witness :
  exists r2 : bool,
    createInRenderer keepData None (mkTextureGLES (rgba4x4 None) 7) []
    = Returned r2 (mkTextureGLES (rgba4x4 None) 7) [] [] /\
    r2 = negb true.
Proof.
  destruct (createInRenderer_second_call keepData None None
              (mkTextureGLES (rgba4x4 (Some (zeros 16))) 0)
              (mkTextureGLES (rgba4x4 None) 7) [7] [] true
              (setupCalls None (rgba4x4 (Some (zeros 16))) 7
                 ++ texImageCalls (rgba4x4 (Some (zeros 16))) (Some (zeros 16)))
              (or_introl (fun E => eq_ind (Some (zeros 16))
                                   (fun o => match o with Some _ => True | None => False end)
                                   I None E))
              eq_refl
              (fun E => eq_ind 7 (fun z => match z with 0 => False | _ => True end) I 0 E)
              eq_refl) as (r2 & H2 & Hneg & _).
  exists r2. split; [exact H2 | exact (Hneg eq_refl)].
Defined.

(** ** A name that is zero *)

(** The name the allocator hands out is never looked at: when it is 0 (the
    allocation failed), a pending texture goes down the same path with the
    same result, and a success leaves a resource whose handle is 0 and whose
    pixel data is gone. *)
Theorem createInRenderer_zero_name (processData : Texture -> RawDataRef)
        (si : option RenderSetupInfoGLES) (this : TextureGLES) (ids : list GLuint) :
  creatable this -> glId this = 0 -> nextTexID ids = 0 ->
  match createInRenderer processData si this ids,
        createInRenderer processData si this (1 :: ids) with
  | Returned r t' _ _, Returned r1 t1 _ _ =>
      r = r1 /\ tex t' = tex t1 /\ glId t' = 0 /\
      (r = true -> texData t' = None)
  | NullDeref, NullDeref => True
  | _, _ => False
  end.
Proof.
  intros Hc Hid Hz.
  unfold createInRenderer, finish, bail.
  rewrite (creatable_guard _ Hc), Hid. cbn [Z.eqb negb].
  destruct (bool_decide (texData this <> None) && bool_decide (processData this = None)).
  { repeat split; first [exact Hz | reflexivity | discriminate]. }
  destruct (isPVRTC this); [repeat split; first [exact Hz | reflexivity | discriminate] |].
  destruct (isPKM this).
  { destruct (texData this) as [d |]; [| exact I].
    destruct (ResolvePKM d uninitialised) as [[payload |] refs];
      repeat split; first [exact Hz | reflexivity]. }
  destruct (negb _ && negb _ && negb _); [| repeat split; first [exact Hz | reflexivity | discriminate]].
  destruct (processData this) as [cd |]; [| repeat split; first [exact Hz | reflexivity | discriminate]].
  destruct (negb _); [| repeat split; first [exact Hz | reflexivity | discriminate]].
  destruct (_ <? _); repeat split; first [exact Hz | reflexivity | discriminate].
Qed.

Lemma createInRenderer_zero_name_witness :
  exists t' log,
    createInRenderer keepData None (mkTextureGLES (rgba4x4 (Some (zeros 16))) 0) []
    = Returned true t' [] log /\
    glId t' = 0 /\ texData t' = None.
Proof.
  do 2 eexists. split; [reflexivity |].
  pose proof (createInRenderer_zero_name keepData None
                (mkTextureGLES (rgba4x4 (Some (zeros 16))) 0) []
                (or_introl (fun E => eq_ind (Some (zeros 16))
                                     (fun o => match o with Some _ => True | None => False end)
                                     I None E))
                eq_refl eq_refl) as H.
  split; [exact (proj1 (proj2 (proj2 H))) | exact (proj2 (proj2 (proj2 H)) eq_refl)].
Defined.
